(** * Face-recognition login backend: the identity-matching engine

    A shallow embedding of [Project/backend/backend.py]: the class
    [EnhancedCNNFaceRecognizer] (enrollment aggregation, advanced and
    simple comparison, detection and extraction), the gallery scan
    [recognize_user_enhanced], the [register] route with its clean-up path
    and the [login] route.

    Numbers.  The program computes with IEEE floats.  Here a Python float
    is read as a real number ([R]) and every arithmetic operation as the
    exact one, so an equation below holds in the program up to floating
    error.  Python [int]s are [Z] or, where they are a [len], [nat].

    Exceptions.  A Python call that may raise returns an [option]; [None]
    is "raised".  Each [try ... except Exception] of the source is a
    [match] on that option. *)

From Stdlib Require Import Reals Lra Lia List String Ascii ZArith Bool.
From Stdlib Require Import Permutation DecimalString DecimalNat.
Import ListNotations.

Open Scope R_scope.

(** An embedding (a one-dimensional float array) is a list of reals. *)
Abbreviation vec := (list R) (only parsing).

(** ** Small Python prelude *)

Module Py.

(** [x >= y] and [x > y] on floats. *)
Definition geb (x y : R) : bool := if Rle_dec y x then true else false.
Definition gtb (x y : R) : bool := if Rlt_dec y x then true else false.

(** [min(a, b)]: the first argument unless the second is smaller. *)
Definition min (a b : R) : R := if Rlt_dec b a then b else a.

(** [max(first, *rest, key=key)]: the first element whose key is not
    exceeded by a later one (a later element replaces the current best
    only when its key is strictly larger). *)
Definition max_from {A K : Type} (gt : K -> K -> bool) (key : A -> K)
  (first : A) (rest : list A) : A :=
  fold_left (fun best x => if gt (key x) (key best) then x else best)
    rest first.

(** [max(l, key=key)]; raises [ValueError] on an empty sequence. *)
Definition max_by {A K : Type} (gt : K -> K -> bool) (key : A -> K)
  (l : list A) : option A :=
  match l with
  | [] => None
  | first :: rest => Some (max_from gt key first rest)
  end.

(** [sum(l)] and [statistics.mean(l)] ([StatisticsError] when empty). *)
Definition sum (l : list R) : R := fold_right Rplus 0 l.

Definition mean (l : list R) : option R :=
  match l with
  | [] => None
  | _ => Some (sum l / INR (List.length l))
  end.

(** The option monad carries "may raise". *)
Definition bind {A B : Type} (m : option A) (k : A -> option B) : option B :=
  match m with
  | Some a => k a
  | None => None
  end.

(** A list comprehension / accumulating [for] loop whose body may raise. *)
Fixpoint traverse {A B : Type} (f : A -> option B) (l : list A)
  : option (list B) :=
  match l with
  | [] => Some []
  | a :: l' =>
      bind (f a) (fun b => bind (traverse f l') (fun bs => Some (b :: bs)))
  end.

(** [s.endswith(suffix)] and [s[:-k]] for a positive [k]. *)
Definition endswith (s suffix : string) : bool :=
  let n := String.length s in
  let k := String.length suffix in
  (k <=? n)%nat && String.eqb (substring (n - k) k s) suffix.

Definition drop_last (k : nat) (s : string) : string :=
  substring 0 (String.length s - k) s.

(** [str(n)] for a non-negative [int]. *)
Definition str_of_nat (n : nat) : string :=
  NilEmpty.string_of_uint (Nat.to_uint n).

End Py.

Notation "x <- m ;; k" := (Py.bind m (fun x => k))
  (at level 61, m at next level, right associativity).

(** ** numpy and scikit-learn on one-dimensional arrays *)

Module Np.

Definition dot (a b : vec) : R :=
  Py.sum (map (fun p => fst p * snd p) (combine a b)).

(** [np.linalg.norm(a)] *)
Definition norm (a : vec) : R := sqrt (dot a a).

(** [a / c] for a scalar [c] *)
Definition div (a : vec) (c : R) : vec := map (fun x => x / c) a.

(** [a + b], elementwise.  All arrays the program adds come out of the
    same network and have one length. *)
Definition add (a b : vec) : vec :=
  map (fun p => fst p + snd p) (combine a b).

(** [np.mean(rows, axis=0)] for a non-empty list of rows: the elementwise
    sum of the rows divided by their number. *)
Definition mean0 (rows : list vec) : vec :=
  match rows with
  | [] => []
  | r :: rs => div (fold_left add rs r) (INR (List.length rows))
  end.

(** Modelled from the spec: [cosine_similarity([a], [b])[0][0]] of
    scikit-learn, which is not part of the repository.  The spec gives
    [cos(a,b) = dot(a,b) / (|a| * |b|)].  The library validates its
    arguments first and raises [ValueError] when one of them is not a
    numeric row ([None]), when the rows are empty, or when their lengths
    differ. *)
Definition cos (x y : vec) : R := dot x y / (norm x * norm y).

Definition cosine_similarity (a b : option vec) : option R :=
  match a, b with
  | Some x, Some y =>
      if ((List.length x =? List.length y)%nat
          && negb (List.length x =? 0)%nat)%bool
      then Some (cos x y)
      else None
  | _, _ => None
  end.

End Np.

(** ** Stored profiles *)

(** The dict built by [extract_features_from_multiple_images] and pickled
    by [register]. *)
Record training_data : Type := mk_training_data {
  ensemble_features : vec;
  individual_features : list vec;
  num_photos : Z;
  training_quality : R
}.

(** What [pickle.load] can give back in [recognize_user_enhanced]: a dict
    with an ['ensemble_features'] key (the multi-photo format), or anything
    else, which the program takes for a bare embedding of the old
    single-photo format; [old_format None] is an object that is no numeric
    array. *)
Inductive stored :=
| new_format (d : training_data)
| old_format (features : option vec).

(** ** class EnhancedCNNFaceRecognizer *)

Module Recognizer.

Definition strict_threshold : R := 0.75.
Definition multi_photo_threshold : R := 0.70.
Definition min_photos_for_training : Z := 3.

(** The threshold chosen in [compare_features_advanced]. *)
Definition dynamic_threshold (stored_data : training_data) : R :=
  if (3 <=? num_photos stored_data)%Z
  then multi_photo_threshold
  else strict_threshold.

(** The similarities of the unknown embedding with each stored one. *)
Definition individual_similarities (stored_data : training_data)
  (unknown_features : vec) : option (list R) :=
  Py.traverse
    (fun individual => Np.cosine_similarity (Some individual)
                         (Some unknown_features))
    (individual_features stored_data).

Definition best_of (sims : list R) : R :=
  match Py.max_by Py.gtb (fun s => s) sims with
  | Some m => m
  | None => 0
  end.

Definition avg_of (sims : list R) : R :=
  match Py.mean sims with
  | Some m => m
  | None => 0
  end.

(** The body of the [try] block of [compare_features_advanced]. *)
Definition advanced_try (stored_data : training_data)
  (unknown_features : vec) : option (bool * R) :=
  ensemble_similarity <-
    Np.cosine_similarity (Some (ensemble_features stored_data))
      (Some unknown_features) ;;
  sims <- individual_similarities stored_data unknown_features ;;
  let best_individual_similarity := best_of sims in
  let avg_individual_similarity := avg_of sims in
  let quality_weight := Py.min (training_quality stored_data) 1 in
  let final_score :=
    (ensemble_similarity * 0.4
     + best_individual_similarity * 0.3
     + avg_individual_similarity * 0.3) * quality_weight in
  let threshold := dynamic_threshold stored_data in
  Some (Py.geb final_score threshold, final_score).

Definition compare_features_advanced (stored_data : option training_data)
  (unknown_features : option vec) : bool * R :=
  match stored_data, unknown_features with
  | Some sd, Some u =>
      match advanced_try sd u with
      | Some result => result
      | None => (false, 0)
      end
  | _, _ => (false, 0)
  end.

Definition compare_features_simple (features1 features2 : option vec)
  (threshold : option R) : bool * R :=
  let threshold :=
    match threshold with
    | None => strict_threshold
    | Some t => t
    end in
  match Np.cosine_similarity features1 features2 with
  | Some similarity => (Py.geb similarity threshold, similarity)
  | None => (false, 0)
  end.

End Recognizer.

(** ** More of the Python prelude: the string methods of the routes *)

Module PyStr.

Definition is_space (c : ascii) : bool :=
  let n := nat_of_ascii c in
  ((9 <=? n)%nat && (n <=? 13)%nat || (28 <=? n)%nat && (n <=? 32)%nat)%bool.

Fixpoint lstrip (s : string) : string :=
  match s with
  | EmptyString => EmptyString
  | String c s' => if is_space c then lstrip s' else s
  end.

Fixpoint rev (s : string) : string :=
  match s with
  | EmptyString => EmptyString
  | String c s' => (rev s' ++ String c EmptyString)%string
  end.

(** [s.strip()] on ASCII text. *)
Definition strip (s : string) : string := rev (lstrip (rev (lstrip s))).

Definition lower_ascii (c : ascii) : ascii :=
  let n := nat_of_ascii c in
  if ((65 <=? n)%nat && (n <=? 90)%nat)%bool then ascii_of_nat (n + 32) else c.

(** [s.lower()] on ASCII text. *)
Fixpoint lower (s : string) : string :=
  match s with
  | EmptyString => EmptyString
  | String c s' => String (lower_ascii c) (lower s')
  end.

(** Truthiness of a [str]. *)
Definition truthy (s : string) : bool := negb (String.eqb s EmptyString).

End PyStr.

(** ** A directory: file names with their contents, in [os.listdir] order *)

Module Dir.
Section Files.
Context {A : Type}.

Definition t : Type := list (string * A).

Definition find_file (name : string) (d : t) : option A :=
  option_map snd (find (fun e => String.eqb (fst e) name) d).

Definition exists_file (name : string) (d : t) : bool :=
  match find_file name d with
  | Some _ => true
  | None => false
  end.

(** [os.remove] of a file that is there (and nothing when it is not). *)
Definition remove_file (name : string) (d : t) : t :=
  filter (fun e => negb (String.eqb (fst e) name)) d.

(** Opening for writing creates the file or replaces its content. *)
Definition write_file (name : string) (content : A) (d : t) : t :=
  remove_file name d ++ [(name, content)].

End Files.
Arguments t : clear implicits.
End Dir.

(** ** The form of a registration and the rows of [users.csv] *)

Record form : Type := mk_form {
  form_name : string;
  form_email : string;
  form_phone : string;
  form_dateOfBirth : string;
  form_gender : string;
  form_address : string;
  form_department : string;
  form_position : string;
  form_emergencyContact : string;
  form_emergencyPhone : string
}.

Record user_row : Type := mk_user_row {
  row_user_id : string;
  row_form : form;
  registration_date : string;
  last_login : string;
  login_count : Z
}.

(** The JSON body of a [/register] request: the form fields (a missing one
    reads as the empty string) and the base64 images. *)
Record request : Type := mk_request {
  req_form : form;
  req_images : list string
}.

(** The outcomes of [recognize_user_enhanced] are plain strings. *)
Definition no_persons_found : string := "no_persons_found".
Definition unknown_person : string := "unknown_person".

(** ** The engine over its injected capabilities *)

Section Backend.

(** A decoded image (a pixel array); a face crop is an image too. *)
Variable image : Type.

(** One entry of the list [detect_faces] returns. *)
Record detection : Type := mk_detection {
  face : image;
  bbox : Z * Z * Z * Z;          (* x, y, width, height *)
  confidence : R
}.

(** MediaPipe face detection wrapped by [detect_faces]. *)
Variable detect_faces : image -> list detection.

(** [extract_features]: the frozen VGG16 read-out, [None] on failure. *)
Variable extract_features : image -> option vec.

(** [decode_image]: base64 and [cv2.imdecode], [None] on failure. *)
Variable decode_image : string -> option image.

(** pandas on the user table.  [pd.read_csv] types every column as it
    reads the file back (a column of all-digit identifiers becomes a column
    of integers, which equal no string, and a blank cell becomes NaN), so
    what the three uses of the table compute is taken as pandas gives it. *)

(** [df[df['user_id'] == user_id]], each selected row as the dict
    [.to_dict()] makes of it, with every value as [str] or [int] renders
    it (a missing name is "nan", a missing count 0). *)
Variable select_user : list user_row -> string -> list user_row.

(** [df['email'].str.lower().values] without its missing entries, [None]
    when the accessor raises. *)
Variable lower_emails : list user_row -> option (list string).

(** The rows [df.to_csv] writes after [pd.concat([df, new_df])]. *)
Variable concat_rows : list user_row -> user_row -> list user_row.

(** [lambda x: x['bbox'][2] * x['bbox'][3]] *)
Definition bbox_area (x : detection) : Z :=
  match bbox x with
  | (_, _, width, height) => (width * height)%Z
  end.

(** The two lines both callers share: [if not faces: ...] followed by
    [max(faces, key=lambda x: x['bbox'][2] * x['bbox'][3])]. *)
Definition largest_face (faces : list detection) : option detection :=
  Py.max_by Z.gtb bbox_area faces.

(** *** [extract_features_from_multiple_images] *)

(** One round of the [for] loop over the images. *)
Definition enroll_step (acc : list vec * nat) (img : image)
  : list vec * nat :=
  let '(all_features, valid_images) := acc in
  match largest_face (detect_faces img) with
  | None => acc                                            (* continue *)
  | Some largest =>
      match extract_features (face largest) with
      | Some features => (all_features ++ [features], S valid_images)
      | None => acc
      end
  end.

Definition extract_features_from_multiple_images (images : list image)
  : option training_data * nat :=
  let '(all_features, valid_images) :=
    fold_left enroll_step images ([], O) in
  if (List.length all_features <? 2)%nat then (None, valid_images)
  else
    let ensemble := Np.mean0 all_features in
    let ensemble := Np.div ensemble (Np.norm ensemble) in
    (Some {| ensemble_features := ensemble;
             individual_features := all_features;
             num_photos := Z.of_nat (List.length all_features);
             training_quality :=
               INR (List.length all_features) / INR (List.length images) |},
     valid_images).

(** *** The gallery scan of [recognize_user_enhanced] *)

(** A file of [PICKLES_DIR]: what [pickle.load] returns, or [None] when
    opening or unpickling it raises. *)
Definition pickle_file : Type := option stored.

(** The dispatch on the format of the loaded object. *)
Definition compare_stored (stored_data : stored) (unknown_features : vec)
  : bool * R :=
  match stored_data with
  | new_format d =>
      Recognizer.compare_features_advanced (Some d) (Some unknown_features)
  | old_format features =>
      Recognizer.compare_features_simple features (Some unknown_features)
        None
  end.

(** One round of the loop over [os.listdir(PICKLES_DIR)]; the state is
    [(best_match, best_score)]. *)
Definition scan_step (unknown_features : vec) (acc : option string * R)
  (entry : string * pickle_file) : option string * R :=
  let '(file, content) := entry in
  let '(best_match, best_score) := acc in
  if Py.endswith file ".pickle" then
    match content with
    | None => acc                                  (* except: continue *)
    | Some stored_data =>
        let '(is_match, score) :=
          compare_stored stored_data unknown_features in
        if (is_match && Py.gtb score best_score)%bool
        then (Some (Py.drop_last 7 file), score)
        else acc
    end
  else acc.

Definition scan (gallery : Dir.t pickle_file) (unknown_features : vec)
  : option string * R :=
  fold_left (scan_step unknown_features) gallery (None, 0).

(** [return best_match if best_match else 'unknown_person'] *)
Definition scan_result (best_match : option string) : string :=
  match best_match with
  | Some user_id => if PyStr.truthy user_id then user_id else unknown_person
  | None => unknown_person
  end.

(** The part of [recognize_user_enhanced] after the embedding is there. *)
Definition identify (gallery : Dir.t pickle_file) (unknown_features : vec)
  : string :=
  scan_result (fst (scan gallery unknown_features)).

Definition recognize_user_enhanced (gallery : Dir.t pickle_file)
  (img : image) : string :=
  match largest_face (detect_faces img) with
  | None => no_persons_found
  | Some largest =>
      match extract_features (face largest) with
      | None => no_persons_found
      | Some unknown_features => identify gallery unknown_features
      end
  end.

(** *** The files the routes work on *)

Record world : Type := mk_world {
  pickles : Dir.t pickle_file;            (* PICKLES_DIR *)
  photos : Dir.t image;                   (* PHOTOS_DIR *)
  users_csv : option (list user_row);     (* USERS_CSV, [None]: no file *)
  csv_read_ok : bool;        (* [pd.read_csv(USERS_CSV)] does not raise *)
  csv_write_ok : bool        (* [df.to_csv(USERS_CSV)] does not raise *)
}.

Definition set_pickles (w : world) (p : Dir.t pickle_file) : world :=
  mk_world p (photos w) (users_csv w) (csv_read_ok w) (csv_write_ok w).

Definition set_photos (w : world) (p : Dir.t image) : world :=
  mk_world (pickles w) p (users_csv w) (csv_read_ok w) (csv_write_ok w).

Definition set_users_csv (w : world) (rows : list user_row) : world :=
  mk_world (pickles w) (photos w) (Some rows) (csv_read_ok w)
    (csv_write_ok w).

(** [email_exists] *)
Definition email_exists (w : world) (email : string) : bool :=
  match users_csv w with
  | Some rows =>
      if csv_read_ok w then
        match lower_emails rows with
        | Some values => existsb (String.eqb (PyStr.lower email)) values
        | None => false                            (* except: False *)
        end
      else false                                   (* except: False *)
  | None => false
  end.

(** [get_user_data] *)
Definition get_user_data (w : world) (user_id : string) : option user_row :=
  match users_csv w with
  | Some rows =>
      if csv_read_ok w then hd_error (select_user rows user_id)
      else None                                    (* except: None *)
  | None => None
  end.

(** [save_user_data]; [now] is [datetime.datetime.now().isoformat()]. *)
Definition save_user_data (w : world) (user_data : form)
  (user_id now : string) : bool * world :=
  let new_user :=
    {| row_user_id := user_id;
       row_form :=
         mk_form (form_name user_data)
           (PyStr.strip (PyStr.lower (form_email user_data)))
           (form_phone user_data) (form_dateOfBirth user_data)
           (form_gender user_data) (form_address user_data)
           (form_department user_data) (form_position user_data)
           (form_emergencyContact user_data)
           (form_emergencyPhone user_data);
       registration_date := now;
       last_login := EmptyString;
       login_count := 0 |} in
  let df :=
    match users_csv w with
    | Some rows => if csv_read_ok w then Some rows else None
    | None => Some []
    end in
  match df with
  | Some rows =>
      if csv_write_ok w
      then (true, set_users_csv w (concat_rows rows new_user))
      else (false, w)
  | None => (false, w)
  end.

(** *** The [/register] route *)

(** The JSON answers of [register] ([Server_error]: an exception leaves
    the route). *)
Inductive response : Type :=
| No_images_provided
| At_least_2_images_required (received : nat)
| Email_already_exists
| Invalid_image_data (i : nat)
| Face_already_registered (user_name : string)
| Failed_to_extract_features (valid_images total : nat)
| Failed_to_save_user_data
| Registered (user_id user_name user_email : string)
    (training_photos valid_photos : nat) (quality : R)
| Server_error.

(** The decoding loop: the images so far, or the 1-based position of the
    first one that does not decode. *)
Fixpoint decode_all (i : nat) (images_data : list string)
  : nat + list image :=
  match images_data with
  | [] => inr []
  | img_data :: rest =>
      match decode_image img_data with
      | None => inl (S i)
      | Some img =>
          match decode_all (S i) rest with
          | inl k => inl k
          | inr images => inr (img :: images)
          end
      end
  end.

(** [f'{user_id}_{i+1}.jpg'] *)
Definition photo_name (user_id : string) (i : nat) : string :=
  (user_id ++ "_" ++ Py.str_of_nat (S i) ++ ".jpg")%string.

(** [for i, image in enumerate(images): cv2.imwrite(...)], from index [i]. *)
Fixpoint save_photos (user_id : string) (i : nat) (images : list image)
  (d : Dir.t image) : Dir.t image :=
  match images with
  | [] => d
  | img :: rest =>
      save_photos user_id (S i) rest
        (Dir.write_file (photo_name user_id i) img d)
  end.

(** [for i in range(n): if os.path.exists(p): os.remove(p)], from [i]. *)
Fixpoint remove_photos (user_id : string) (i n : nat) (d : Dir.t image)
  : Dir.t image :=
  match n with
  | O => d
  | S n' =>
      remove_photos user_id (S i) n'
        (Dir.remove_file (photo_name user_id i) d)
  end.

(** The clean-up block: [os.remove(pickle_path)] raises when the file is
    missing, and the bare [except: pass] then skips the rest. *)
Definition clean_up (w : world) (user_id : string) (n_images : nat)
  : world :=
  let pickle_path := (user_id ++ ".pickle")%string in
  let first_photo_path := (user_id ++ ".jpg")%string in
  if Dir.exists_file pickle_path (pickles w) then
    let w := set_pickles w (Dir.remove_file pickle_path (pickles w)) in
    let w := set_photos w (remove_photos user_id 0 n_images (photos w)) in
    set_photos w (Dir.remove_file first_photo_path (photos w))
  else w.

(** [register]; [uuid8] is [str(uuid.uuid4())[:8]] and [now] the clock. *)
Definition register (w : world) (data : request) (uuid8 now : string)
  : response * world :=
  let f := req_form data in
  let name := PyStr.strip (form_name f) in
  let email := PyStr.lower (PyStr.strip (form_email f)) in
  let images_data := req_images data in
  match images_data with
  | [] => (No_images_provided, w)
  | _ =>
  if (List.length images_data <? 2)%nat
  then (At_least_2_images_required (List.length images_data), w)
  else if (PyStr.truthy email && email_exists w email)%bool
  then (Email_already_exists, w)
  else
  match decode_all 0 images_data with
  | inl i => (Invalid_image_data i, w)
  | inr [] => (Server_error, w)                       (* images[0] *)
  | inr ((first_image :: _) as images) =>
  let matched_user_id := recognize_user_enhanced (pickles w) first_image in
  if negb (String.eqb matched_user_id no_persons_found
           || String.eqb matched_user_id unknown_person)
  then
    let user_name :=
      match get_user_data w matched_user_id with
      | Some matched_user_data => form_name (row_form matched_user_data)
      | None => matched_user_id
      end in
    (Face_already_registered user_name, w)
  else
  let user_id := uuid8 in
  let '(training, valid_images) :=
    extract_features_from_multiple_images images in
  match training with
  | None =>
      (Failed_to_extract_features valid_images (List.length images), w)
  | Some training =>
  let pickle_path := (user_id ++ ".pickle")%string in
  let w1 :=
    set_pickles w
      (Dir.write_file pickle_path (Some (new_format training))
         (pickles w)) in
  let w2 := set_photos w1 (save_photos user_id 0 images (photos w1)) in
  let first_photo_path := (user_id ++ ".jpg")%string in
  let w3 :=
    set_photos w2 (Dir.write_file first_photo_path first_image (photos w2)) in
  let user_data :=
    mk_form name email (PyStr.strip (form_phone f))
      (PyStr.strip (form_dateOfBirth f)) (PyStr.strip (form_gender f))
      (PyStr.strip (form_address f)) (PyStr.strip (form_department f))
      (PyStr.strip (form_position f))
      (PyStr.strip (form_emergencyContact f))
      (PyStr.strip (form_emergencyPhone f)) in
  let '(saved, w4) := save_user_data w3 user_data user_id now in
  if negb saved
  then (Failed_to_save_user_data, clean_up w4 user_id (List.length images))
  else
    (Registered user_id name email (List.length images) valid_images
       (training_quality training), w4)
  end
  end
  end.

(** *** Vocabulary of the statements *)

(** The embedding an image contributes: that of its largest face. *)
Definition primary_embedding (img : image) : option vec :=
  largest <- largest_face (detect_faces img) ;;
  extract_features (face largest).

(** The embeddings of the images that have one, in the order of the images. *)
Fixpoint accepted_features (images : list image) : list vec :=
  match images with
  | [] => []
  | img :: rest =>
      match primary_embedding img with
      | Some features => features :: accepted_features rest
      | None => accepted_features rest
      end
  end.

(** The name [register] puts in its "already registered" answer. *)
Definition surfaced_name (w : world) (matched_user_id : string) : string :=
  match get_user_data w matched_user_id with
  | Some matched_user_data => form_name (row_form matched_user_data)
  | None => matched_user_id
  end.

Definition is_success (r : response) : bool :=
  match r with
  | Registered _ _ _ _ _ _ => true
  | _ => false
  end.

End Backend.

Arguments face {image}.
Arguments bbox {image}.
Arguments confidence {image}.
Arguments mk_detection {image}.
Arguments bbox_area {image}.
Arguments largest_face {image}.
Arguments pickles {image}.
Arguments photos {image}.
Arguments users_csv {image}.
Arguments csv_read_ok {image}.
Arguments csv_write_ok {image}.
Arguments mk_world {image}.

(** A stored profile of the gallery that matches the unknown embedding with
    score [score]: a readable [.pickle] file whose comparison (advanced for
    the multi-photo format, simple for the old one) says [is_match]. *)
Definition is_candidate (gallery : Dir.t pickle_file) (unknown : vec)
  (file : string) (score : R) : Prop :=
  exists stored_data : stored,
    In (file, Some stored_data) gallery /\
    Py.endswith file ".pickle" = true /\
    match stored_data with
    | new_format d =>
        Recognizer.compare_features_advanced (Some d) (Some unknown)
    | old_format features =>
        Recognizer.compare_features_simple features (Some unknown) None
    end = (true, score).

(** The identity keys of a gallery are not empty ([register] names a
    profile after an 8-character identifier). *)
Definition keys_nonempty (gallery : Dir.t pickle_file) : Prop :=
  forall file content,
    In (file, content) gallery ->
    Py.endswith file ".pickle" = true ->
    Py.drop_last 7 file <> EmptyString.

(** A profile the advanced comparison can score against [u]: the probe is
    a non-empty array, every stored embedding has its length, and at least
    one individual embedding is stored. *)
Definition well_formed_profile (d : training_data) (u : vec) : Prop :=
  u <> [] /\
  List.length (ensemble_features d) = List.length u /\
  individual_features d <> [] /\
  Forall (fun v => List.length v = List.length u) (individual_features d).

(** What the loop knows after any number of files: either nothing matched
    so far and the state is still [(None, 0.0)], or the state names a
    matching file of the part scanned whose score no other match exceeds. *)
Definition scan_invariant (g : Dir.t pickle_file) (u : vec)
  (acc : option string * R) : Prop :=
  match fst acc with
  | None => snd acc = 0 /\ forall f s, ~ is_candidate g u f s
  | Some user_id =>
      exists file,
        is_candidate g u file (snd acc) /\
        user_id = Py.drop_last 7 file /\
        forall f s, is_candidate g u f s -> s <= snd acc
  end.

(** ** A small installation

    Images are numbered; image 0 shows no face, every other image shows a
    small face in a corner and a large one, and the large faces of images
    1 and 2 belong to the same person. *)

Module Example.

Definition image : Type := nat.

Definition detect_faces (img : image) : list (detection image) :=
  match img with
  | O => []
  | S _ =>
      [mk_detection O (0, 0, 2, 2)%Z 0.5;
       mk_detection img (4, 4, 10, 10)%Z 0.9]
  end.

Definition extract_features (crop : image) : option vec :=
  match crop with
  | 0%nat => None
  | 1%nat | 2%nat => Some [1; 0]
  | _ => Some [0; 1]
  end.

Definition decode_image (base64_str : string) : option image :=
  match base64_str with
  | EmptyString => None
  | _ => Some (String.length base64_str)
  end.

(** pandas on a table whose identifiers are not numerals and whose
    e-mail addresses are ordinary text: the rows with the identifier, a
    blank name read back as NaN, hence "nan". *)
Definition select_user (rows : list user_row) (user_id : string)
  : list user_row :=
  map
    (fun r =>
       match form_name (row_form r) with
       | EmptyString =>
           mk_user_row (row_user_id r)
             (mk_form "nan" (form_email (row_form r))
                (form_phone (row_form r)) (form_dateOfBirth (row_form r))
                (form_gender (row_form r)) (form_address (row_form r))
                (form_department (row_form r)) (form_position (row_form r))
                (form_emergencyContact (row_form r))
                (form_emergencyPhone (row_form r)))
             (registration_date r) (last_login r) (login_count r)
       | _ => r
       end)
    (filter (fun r => String.eqb (row_user_id r) user_id) rows).

Definition lower_emails (rows : list user_row) : option (list string) :=
  Some
    (map PyStr.lower
       (filter PyStr.truthy (map (fun r => form_email (row_form r)) rows))).

Definition concat_rows (rows : list user_row) (new_user : user_row)
  : list user_row :=
  rows ++ [new_user].

(** One enrolled identity in the old single-photo format. *)
Definition gallery : Dir.t pickle_file :=
  [("a1b2c3d4.pickle"%string, Some (old_format (Some [1; 0])))].

(** The profile the aggregation builds from images 1 and 2. *)
Definition profile : training_data :=
  let rows := [[1; 0]; [1; 0]] in
  {| ensemble_features :=
       Np.div (Np.mean0 rows) (Np.norm (Np.mean0 rows));
     individual_features := rows;
     num_photos := 2;
     training_quality := INR 2 / INR 2 |}.

(** An empty installation whose CSV cannot be written. *)
Definition read_only_world : world image :=
  mk_world [] [] (Some []) true false.

(** An installation with the one enrolled identity. *)
Definition enrolled_world : world image :=
  mk_world gallery [] (Some []) true true.

Definition two_photos : request :=
  let blank := EmptyString in
  mk_request
    (mk_form "Ann" " Ann@Example.org" blank blank blank blank blank blank
       blank blank)
    ["a"; "bb"]%string.

End Example.

(** ** The rest of the recognizer: detection and extraction *)

Module Detector.

(** [int(x)] on a float: truncation toward zero. *)
Definition int (x : R) : Z :=
  if Rle_dec 0 x then Int_part x else (- Int_part (- x))%Z.

(** [detection.location_data.relative_bounding_box] and, when the
    detection has one, [detection.score[0]]. *)
Record relative_detection : Type := mk_relative_detection {
  xmin : R;
  ymin : R;
  rel_width : R;
  rel_height : R;
  score : option R
}.

Section DetectFaces.
Variable image : Type.

(** [self.face_detection.process(rgb_image).detections] (empty for [None]). *)
Variable process : image -> list relative_detection.

(** [image.shape]: height and width. *)
Variable shape : image -> Z * Z.

(** [image[y:y+height, x:x+width]] *)
Variable crop : image -> Z -> Z -> Z -> Z -> image.

(** One round of the loop over the detections: the face appended, if any. *)
Definition clamp (img : image) (h w : Z) (d : relative_detection)
  : list (detection image) :=
  let x := int (xmin d * IZR w) in
  let y := int (ymin d * IZR h) in
  let width := int (rel_width d * IZR w) in
  let height := int (rel_height d * IZR h) in
  let x := Z.max 0 x in
  let y := Z.max 0 y in
  let width := Z.min width (w - x) in
  let height := Z.min height (h - y) in
  if ((0 <? width)%Z && (0 <? height)%Z)%bool
  then
    [mk_detection (crop img y height x width) (x, y, width, height)
       match score d with
       | Some s => s
       | None => 0.9
       end]
  else [].

Definition detect_faces (img : image) : list (detection image) :=
  let '(h, w) := shape img in
  flat_map (clamp img h w) (process img).

End DetectFaces.

(** A box inside an image of height [h] and width [w], with a positive
    extent in both directions. *)
Definition box_in_bounds (h w : Z) (box : Z * Z * Z * Z) : Prop :=
  match box with
  | (x, y, width, height) =>
      (0 <= x /\ 0 <= y /\ 0 < width /\ 0 < height /\
       x + width <= w /\ y + height <= h)%Z
  end.

End Detector.

Module Extractor.
Section ExtractFeatures.
Variables image tensor : Type.

(** [preprocess_face]: resizing and VGG16 preprocessing, [None] when it
    raises. *)
Variable preprocess_face : image -> option tensor.

(** [self.model.predict(...).flatten()], [None] when it raises. *)
Variable predict : tensor -> option vec.

(** [extract_features].  For an all-zero read-out numpy's division gives
    an array of NaN, which a list of reals cannot hold; the statements
    about this function leave that input out. *)
Definition extract_features (face : image) : option vec :=
  match preprocess_face face with
  | None => None
  | Some processed_face =>
      match predict processed_face with
      | Some features => Some (Np.div features (Np.norm features))
      | None => None
      end
  end.

End ExtractFeatures.
End Extractor.

(** ** Vocabulary for the routes *)

(** No key of the gallery is empty or one of the two outcome strings of
    [recognize_user_enhanced]. *)
Definition keys_proper (gallery : Dir.t pickle_file) : Prop :=
  forall file content,
    In (file, content) gallery ->
    Py.endswith file ".pickle" = true ->
    Py.drop_last 7 file <> EmptyString /\
    Py.drop_last 7 file <> no_persons_found /\
    Py.drop_last 7 file <> unknown_person.

Section RouteVocabulary.
Variable image : Type.

(** The files of [w] after [register] has written the pickle and the
    photos of [user_id], before it saves the user data. *)
Definition written_world (w : world image) (user_id : string)
  (training : training_data) (images : list image) : world image :=
  let w1 :=
    set_pickles image w
      (Dir.write_file (user_id ++ ".pickle")%string
         (Some (new_format training)) (pickles w)) in
  let w2 :=
    set_photos image w1 (save_photos image user_id 0 images (photos w1)) in
  match images with
  | [] => w2
  | first_image :: _ =>
      set_photos image w2
        (Dir.write_file (user_id ++ ".jpg")%string first_image (photos w2))
  end.

(** None of the files [register] writes for [user_id] is there yet. *)
Definition files_fresh (w : world image) (user_id : string) (n_images : nat)
  : Prop :=
  Dir.find_file (user_id ++ ".pickle")%string (pickles w) = None /\
  Dir.find_file (user_id ++ ".jpg")%string (photos w) = None /\
  forall i, (i < n_images)%nat ->
            Dir.find_file (photo_name user_id i) (photos w) = None.

End RouteVocabulary.

(** ** The [/login] route *)

Section Login.
Variable image : Type.
Variable detect_faces : image -> list (detection image).
Variable extract_features : image -> option vec.
Variable decode_image : string -> option image.
Variable select_user : list user_row -> string -> list user_row.

(** The rows [df.to_csv] writes after [last_login] and [login_count] of
    the first row pandas selects for this [user_id] were set; [None] when
    it selects no row. *)
Variable bump_login : list user_row -> string -> string
                      -> option (list user_row).

(** The files together with the lines of [LOG_PATH]. *)
Record site : Type := mk_site {
  files : world image;
  log : list string
}.

(** [update_login_info]; [now] is [datetime.datetime.now().isoformat()]. *)
Definition update_login_info (w : world image) (user_id now : string)
  : bool * world image :=
  match users_csv w with
  | Some rows =>
      if csv_read_ok w then
        match bump_login rows user_id now with
        | Some rows' =>
            if csv_write_ok w
            then (true, set_users_csv image w rows')
            else (false, w)                          (* except: False *)
        | None => (false, w)
        end
      else (false, w)                                (* except: False *)
  | None => (false, w)
  end.

(** The JSON answers of [login]. *)
Inductive login_response : Type :=
| Invalid_image
| Face_not_recognized
| User_data_not_found
| Stored_image_not_found
| Logged_in (user_id : string) (user_data : user_row) (count : Z)
    (stored_image : image).

(** [f'{user_id},{name},{now},{action}'], a line of the log. *)
Definition log_line (user_id name now action : string) : string :=
  (user_id ++ "," ++ name ++ "," ++ now ++ "," ++ action)%string.

(** [login]; [now_iso] and [now] are the two readings of the clock.  A
    photo that is there is taken to be readable by [cv2.imread]. *)
Definition login (s : site) (image_data : string) (now_iso now : string)
  : login_response * site :=
  match decode_image image_data with
  | None => (Invalid_image, s)
  | Some img =>
      let user_id :=
        recognize_user_enhanced image detect_faces extract_features
          (pickles (files s)) img in
      if (String.eqb user_id no_persons_found
          || String.eqb user_id unknown_person)%bool
      then (Face_not_recognized, s)
      else
        match get_user_data image select_user (files s) user_id with
        | None => (User_data_not_found, s)
        | Some user_data =>
            let '(_, w1) := update_login_info (files s) user_id now_iso in
            let s1 :=
              mk_site w1
                (log s
                 ++ [log_line user_id (form_name (row_form user_data)) now
                       "in"]) in
            let image_path :=
              if Dir.exists_file (photo_name user_id 0) (photos w1)
              then photo_name user_id 0
              else (user_id ++ ".jpg")%string in
            match Dir.find_file image_path (photos w1) with
            | None => (Stored_image_not_found, s1)
            | Some stored_image =>
                (Logged_in user_id user_data (login_count user_data + 1)%Z
                   stored_image, s1)
            end
        end
  end.

(** The answers [login] gives before it touches anything. *)
Definition refused (r : login_response) : bool :=
  match r with
  | Invalid_image | Face_not_recognized | User_data_not_found => true
  | _ => false
  end.

End Login.

Arguments files {image}.
Arguments log {image}.
Arguments mk_site {image}.
Arguments Logged_in {image}.
Arguments Invalid_image {image}.
Arguments Face_not_recognized {image}.
Arguments User_data_not_found {image}.
Arguments Stored_image_not_found {image}.
Arguments refused {image}.

(** ** More of the small installation *)

Module Scenario.

(** A profile built from half of the submitted images. *)
Definition low_quality_profile : training_data :=
  mk_training_data [1; 0] [[1; 0]; [1; 0]] 2 (1 / 2).

(** An empty installation whose user table can be written. *)
Definition fresh_world : world Example.image :=
  mk_world [] [] (Some []) true true.

(** The registration of two photos of the same person there. *)
Definition registered : response * world Example.image :=
  register Example.image Example.detect_faces Example.extract_features
    Example.decode_image Example.select_user Example.lower_emails
    Example.concat_rows fresh_world Example.two_photos "deadbeef"
    "2024-01-01T00:00:00".

(** The enrolled identity of [Example.gallery] with its row and photo. *)
Definition ann : user_row :=
  let blank := EmptyString in
  mk_user_row "a1b2c3d4"
    (mk_form "Ann" "ann@example.org" blank blank blank blank blank blank
       blank blank)
    "2024-01-01T00:00:00" blank 0.

(** The same identity enrolled without a name ([register] asks for none). *)
Definition nameless : user_row :=
  let blank := EmptyString in
  mk_user_row "a1b2c3d4"
    (mk_form blank "first@example.org" blank blank blank blank blank blank
       blank blank)
    "2024-01-01T00:00:00" blank 0.

Definition nameless_world : world Example.image :=
  mk_world Example.gallery [] (Some [nameless]) true true.

Definition desk : site Example.image :=
  mk_site
    (mk_world Example.gallery [("a1b2c3d4.jpg"%string, 1%nat)] (Some [ann])
       true true)
    [].

(** pandas on a table whose identifiers are not numerals: the first row
    with the identifier gets the time and one more login. *)
Fixpoint bump_login (rows : list user_row) (user_id now : string)
  : option (list user_row) :=
  match rows with
  | [] => None
  | r :: rest =>
      if String.eqb (row_user_id r) user_id
      then
        Some (mk_user_row (row_user_id r) (row_form r) (registration_date r)
                now (login_count r + 1)%Z :: rest)
      else option_map (cons r) (bump_login rest user_id now)
  end.

(** An extractor whose network reads [[1, 0]] out of every face. *)
Definition preprocess_face (face : Example.image) : option Example.image :=
  Some face.

Definition predict (processed : Example.image) : option vec :=
  Some [1; 0].

End Scenario.

(** * Properties *)

(** ** Comparisons, [min], [max] and [mean] *)

Lemma geb_true_iff (x y : R) : Py.geb x y = true <-> y <= x.
Proof.
  unfold Py.geb. destruct (Rle_dec y x); split; intro H;
    try reflexivity; try assumption; try discriminate; contradiction.
Qed.

Lemma gtb_true_iff (x y : R) : Py.gtb x y = true <-> y < x.
Proof.
  unfold Py.gtb. destruct (Rlt_dec y x); split; intro H;
    try reflexivity; try assumption; try discriminate; contradiction.
Qed.

Lemma gtb_false_iff (x y : R) : Py.gtb x y = false <-> x <= y.
Proof.
  unfold Py.gtb. destruct (Rlt_dec y x); split; intro H;
    try reflexivity; try discriminate; lra.
Qed.

Lemma py_min_Rmin (a b : R) : Py.min a b = Rmin a b.
Proof.
  unfold Py.min, Rmin.
  destruct (Rlt_dec b a), (Rle_dec a b); try reflexivity; lra.
Qed.

(** [max] with a key returns an element of the sequence whose key no other
    element exceeds, for any strict comparison [gt] of a total preorder. *)
Section MaxBy.
Context {A K : Type}.
Variable gt : K -> K -> bool.
Variable le : K -> K -> Prop.
Variable key : A -> K.
Hypothesis le_refl : forall k, le k k.
Hypothesis le_trans : forall a b c, le a b -> le b c -> le a c.
Hypothesis gt_true : forall a b, gt a b = true -> le b a.
Hypothesis gt_false : forall a b, gt a b = false -> le a b.

Lemma max_from_spec (rest : list A) (first : A) :
  let m := Py.max_from gt key first rest in
  In m (first :: rest) /\
  le (key first) (key m) /\
  forall x, In x rest -> le (key x) (key m).
Proof.
  unfold Py.max_from. revert first.
  induction rest as [|y rest IH]; intro first; simpl.
  - split; [now left|]. split; [apply le_refl|]. intros x [].
  - destruct (gt (key y) (key first)) eqn:E.
    + destruct (IH y) as (Hin & Hle & Hall). split; [|split].
      * right. exact Hin.
      * eapply le_trans; [apply gt_true; exact E | exact Hle].
      * intros x [<- | Hx]; [exact Hle | now apply Hall].
    + destruct (IH first) as (Hin & Hle & Hall). split; [|split].
      * destruct Hin as [<- | Hin]; [now left | right; now right].
      * exact Hle.
      * intros x [<- | Hx]; [|now apply Hall].
        eapply le_trans; [apply gt_false; exact E | exact Hle].
Qed.

Lemma max_by_spec (l : list A) (m : A) :
  Py.max_by gt key l = Some m ->
  In m l /\ forall x, In x l -> le (key x) (key m).
Proof.
  destruct l as [|first rest]; simpl; [discriminate|].
  intros [= <-]. destruct (max_from_spec rest first) as (Hin & Hle & Hall).
  split; [exact Hin|]. intros x [<- | Hx]; [exact Hle | now apply Hall].
Qed.

Lemma max_by_None (l : list A) : Py.max_by gt key l = None <-> l = [].
Proof. destruct l; simpl; split; congruence. Qed.

End MaxBy.

Lemma best_of_spec (sims : list R) :
  sims <> [] ->
  In (Recognizer.best_of sims) sims /\
  forall x, In x sims -> x <= Recognizer.best_of sims.
Proof.
  intro Hne. unfold Recognizer.best_of.
  destruct (Py.max_by Py.gtb (fun s => s) sims) as [m|] eqn:E.
  - apply (max_by_spec Py.gtb Rle (fun s => s)) in E; try exact E.
    + intros; lra.
    + intros; lra.
    + intros a b H. apply gtb_true_iff in H. lra.
    + intros a b H. apply gtb_false_iff in H. exact H.
  - apply max_by_None in E. contradiction.
Qed.

Lemma avg_of_spec (sims : list R) :
  sims <> [] ->
  Recognizer.avg_of sims * INR (List.length sims) = Py.sum sims.
Proof.
  intro Hne. unfold Recognizer.avg_of, Py.mean.
  destruct sims as [|s sims]; [contradiction|].
  assert (INR (List.length (s :: sims)) <> 0) as Hn.
  { apply not_0_INR. simpl. discriminate. }
  field. exact Hn.
Qed.

(** ** The two comparisons *)

Lemma thresholds_positive (d : training_data) :
  0 < Recognizer.dynamic_threshold d /\ 0 < Recognizer.strict_threshold.
Proof.
  unfold Recognizer.dynamic_threshold, Recognizer.multi_photo_threshold,
    Recognizer.strict_threshold.
  destruct (3 <=? num_photos d)%Z; lra.
Qed.

(** Both comparisons decide by [score >= threshold], also on the paths
    that answer [(False, 0.0)]. *)
Lemma advanced_decides (d : training_data) (u : option vec) :
  fst (Recognizer.compare_features_advanced (Some d) u) = true <->
  Recognizer.dynamic_threshold d
    <= snd (Recognizer.compare_features_advanced (Some d) u).
Proof.
  pose proof (thresholds_positive d) as [Hpos _].
  unfold Recognizer.compare_features_advanced.
  destruct u as [u|]; simpl.
  - unfold Recognizer.advanced_try.
    destruct (Np.cosine_similarity _ _) as [e|]; simpl.
    + destruct (Recognizer.individual_similarities d u) as [sims|]; simpl.
      * apply geb_true_iff.
      * split; [discriminate | lra].
    + split; [discriminate | lra].
  - split; [discriminate | lra].
Qed.

Lemma simple_decides (f1 f2 : option vec) (threshold : option R) :
  let t := match threshold with
           | None => Recognizer.strict_threshold
           | Some t => t
           end in
  0 < t ->
  (fst (Recognizer.compare_features_simple f1 f2 threshold) = true <->
   t <= snd (Recognizer.compare_features_simple f1 f2 threshold)).
Proof.
  intros t Ht. unfold Recognizer.compare_features_simple. fold t.
  destruct (Np.cosine_similarity f1 f2) as [s|]; simpl.
  - apply geb_true_iff.
  - split; [discriminate | lra].
Qed.

Lemma cosine_similarity_same_length (x y : vec) :
  y <> [] -> List.length x = List.length y ->
  Np.cosine_similarity (Some x) (Some y) = Some (Np.cos x y).
Proof.
  intros Hne Hlen. unfold Np.cosine_similarity.
  rewrite Hlen, Nat.eqb_refl. destruct y; [contradiction|]. reflexivity.
Qed.

Lemma individual_similarities_well_formed (d : training_data) (u : vec) :
  u <> [] ->
  Forall (fun v => List.length v = List.length u) (individual_features d) ->
  Recognizer.individual_similarities d u
  = Some (map (fun v => Np.cos v u) (individual_features d)).
Proof.
  intros Hne Hall. unfold Recognizer.individual_similarities.
  induction Hall as [|v vs Hv _ IH]; cbn [Py.traverse map]; [reflexivity|].
  rewrite (cosine_similarity_same_length v u Hne Hv). cbn [Py.bind].
  rewrite IH. reflexivity.
Qed.

(** C7. A null stored profile or a null unknown embedding makes both the
    advanced and the simple comparison answer [(False, 0.0)]; the model
    has no other outcome, so neither raises. *)
Theorem null_input_is_non_match :
  (forall (stored_data : option training_data) (unknown : option vec),
      stored_data = None \/ unknown = None ->
      Recognizer.compare_features_advanced stored_data unknown = (false, 0))
  /\
  (forall (features1 features2 : option vec) (threshold : option R),
      features1 = None \/ features2 = None ->
      Recognizer.compare_features_simple features1 features2 threshold
      = (false, 0)).
Proof.
  split.
  - intros sd u [-> | ->]; [reflexivity|]. destruct sd; reflexivity.
  - intros f1 f2 t [-> | ->]; unfold Recognizer.compare_features_simple.
    + reflexivity.
    + destruct f1; reflexivity.
Qed.

(** C2. The advanced comparison decides against 0.70 exactly when the
    profile has at least 3 photos and against 0.75 otherwise (so with 2
    photos); a legacy profile goes through the simple comparison without
    a threshold argument and is decided against 0.75; in each case
    [is_match] is [score >= threshold]. *)
Theorem dynamic_threshold_selection (d : training_data) (unknown : vec)
  (legacy : option vec) :
  (Recognizer.dynamic_threshold d = 0.70 <-> (3 <= num_photos d)%Z) /\
  (Recognizer.dynamic_threshold d = 0.75 <-> (num_photos d < 3)%Z) /\
  ((num_photos d = 2)%Z -> Recognizer.dynamic_threshold d = 0.75) /\
  (fst (compare_stored (new_format d) unknown) = true <->
   Recognizer.dynamic_threshold d
     <= snd (compare_stored (new_format d) unknown)) /\
  (fst (compare_stored (old_format legacy) unknown) = true <->
   0.75 <= snd (compare_stored (old_format legacy) unknown)).
Proof.
  assert (Hthr : Recognizer.dynamic_threshold d
                 = if (3 <=? num_photos d)%Z then 0.70 else 0.75)
    by reflexivity.
  repeat split.
  - rewrite Hthr. destruct (3 <=? num_photos d)%Z eqn:E; intro H.
    + apply Z.leb_le. exact E.
    + lra.
  - intro H. rewrite Hthr. apply Z.leb_le in H. rewrite H. reflexivity.
  - rewrite Hthr. destruct (3 <=? num_photos d)%Z eqn:E; intro H.
    + lra.
    + apply Z.leb_gt. exact E.
  - intro H. rewrite Hthr. apply Z.leb_gt in H. rewrite H. reflexivity.
  - intro H. rewrite Hthr, H. reflexivity.
  - apply advanced_decides.
  - apply advanced_decides.
  - apply (simple_decides legacy (Some unknown) None). simpl.
    unfold Recognizer.strict_threshold. lra.
  - apply (simple_decides legacy (Some unknown) None). simpl.
    unfold Recognizer.strict_threshold. lra.
Qed.

(** C3. On a well-formed multi-photo profile and a non-null unknown
    embedding the advanced score is
    [(0.4 * ensemble + 0.3 * best + 0.3 * average) * min(quality, 1.0)],
    [best] the largest and [average] the mean of the cosine similarities
    with the individual embeddings. *)
Theorem advanced_score_formula (d : training_data) (unknown : vec) :
  well_formed_profile d unknown ->
  let sims := map (fun v => Np.cos v unknown) (individual_features d) in
  exists best avg : R,
    In best sims /\
    (forall s, In s sims -> s <= best) /\
    avg * INR (List.length sims) = Py.sum sims /\
    snd (Recognizer.compare_features_advanced (Some d) (Some unknown))
    = (0.4 * Np.cos (ensemble_features d) unknown
       + 0.3 * best + 0.3 * avg)
      * Rmin (training_quality d) 1.
Proof.
  intros (Hne & Hens & Hind & Hall) sims.
  assert (sims <> []) as Hsims.
  { subst sims. destruct (individual_features d); [contradiction|].
    simpl. discriminate. }
  exists (Recognizer.best_of sims), (Recognizer.avg_of sims).
  destruct (best_of_spec sims Hsims) as [Hin Hmax].
  split; [exact Hin|]. split; [exact Hmax|].
  split; [apply avg_of_spec; exact Hsims|].
  unfold Recognizer.compare_features_advanced, Recognizer.advanced_try.
  rewrite (cosine_similarity_same_length _ _ Hne Hens).
  rewrite (individual_similarities_well_formed d unknown Hne Hall).
  cbn [Py.bind snd]. fold sims. rewrite py_min_Rmin. ring.
Qed.

(** ** Face selection and enrollment *)

Section Enrollment.
Variable image : Type.
Variable detect_faces : image -> list (detection image).
Variable extract_features : image -> option vec.

Local Abbreviation primary :=
  (primary_embedding image detect_faces extract_features).
Local Abbreviation accepted :=
  (accepted_features image detect_faces extract_features).
Local Abbreviation step := (enroll_step image detect_faces extract_features).
Local Abbreviation aggregate :=
  (extract_features_from_multiple_images image detect_faces extract_features).

Lemma largest_face_spec (faces : list (detection image)) (f : detection image) :
  largest_face faces = Some f ->
  In f faces /\ forall g, In g faces -> (bbox_area g <= bbox_area f)%Z.
Proof.
  unfold largest_face.
  apply (max_by_spec Z.gtb Z.le bbox_area).
  - intros; lia.
  - intros; lia.
  - intros a b H. apply Z.gtb_lt in H. lia.
  - intros a b H. rewrite Z.gtb_ltb in H. apply Z.ltb_ge in H. exact H.
Qed.

Lemma enroll_step_primary (all_features : list vec) (n : nat) (img : image) :
  step (all_features, n) img
  = match primary img with
    | Some features => (all_features ++ [features], S n)
    | None => (all_features, n)
    end.
Proof.
  unfold enroll_step, primary_embedding.
  destruct (largest_face (detect_faces img)) as [l|]; [|reflexivity].
  cbn [Py.bind]. destruct (extract_features (face l)); reflexivity.
Qed.

(** The loop collects exactly the accepted embeddings and counts them. *)
Lemma enroll_loop (images : list image) (all_features : list vec) (n : nat) :
  fold_left step images (all_features, n)
  = (all_features ++ accepted images,
     (n + List.length (accepted images))%nat).
Proof.
  revert all_features n.
  induction images as [|img images IH]; intros all_features n.
  - cbn [fold_left accepted_features List.length].
    rewrite app_nil_r, Nat.add_0_r. reflexivity.
  - cbn [fold_left accepted_features]. rewrite enroll_step_primary.
    destruct (primary img) as [features|]; rewrite IH.
    + rewrite <- app_assoc. cbn [app List.length].
      rewrite Nat.add_succ_r. reflexivity.
    + reflexivity.
Qed.

Lemma aggregate_unfold (images : list image) :
  aggregate images
  = let all_features := accepted images in
    if (List.length all_features <? 2)%nat
    then (None, List.length all_features)
    else
      (Some {| ensemble_features :=
                 Np.div (Np.mean0 all_features)
                   (Np.norm (Np.mean0 all_features));
               individual_features := all_features;
               num_photos := Z.of_nat (List.length all_features);
               training_quality :=
                 INR (List.length all_features) / INR (List.length images) |},
       List.length all_features).
Proof.
  unfold extract_features_from_multiple_images.
  rewrite enroll_loop. reflexivity.
Qed.

(** C9. Face selection returns nothing on an empty set of regions and
    otherwise one region of the set whose bounding-box area no other
    region exceeds; the recognition path embeds the face selected this
    way, and enrollment collects, image by image, the embedding of the
    face selected the same way. *)
Theorem largest_face_selection :
  largest_face (@nil (detection image)) = None /\
  (forall faces : list (detection image),
      faces <> [] ->
      exists f,
        largest_face faces = Some f /\
        In f faces /\
        forall g, In g faces -> (bbox_area g <= bbox_area f)%Z) /\
  (forall gallery img,
      recognize_user_enhanced image detect_faces extract_features gallery img
      = match primary img with
        | Some unknown_features => identify gallery unknown_features
        | None => no_persons_found
        end) /\
  (forall images,
      fold_left step images ([], O)
      = (accepted images, List.length (accepted images))).
Proof.
  split; [reflexivity|]. split; [|split].
  - intros faces Hne.
    destruct (largest_face faces) as [f|] eqn:E.
    + exists f. split; [reflexivity|]. now apply largest_face_spec.
    + apply max_by_None in E. contradiction.
  - intros gallery img. unfold recognize_user_enhanced, primary_embedding.
    destruct (largest_face (detect_faces img)) as [l|]; [|reflexivity].
    cbn [Py.bind]. destruct (extract_features (face l)); reflexivity.
  - intros images. rewrite enroll_loop. reflexivity.
Qed.

(** C4. With fewer than 2 usable images the aggregation returns no profile
    and the number of usable images; with 2 or more it returns a profile
    whose [num_photos] is that number and whose [training_quality] is that
    number divided by the number of images submitted. *)
Theorem aggregation_floor (images : list image) :
  let usable := List.length (accepted images) in
  ((usable < 2)%nat -> aggregate images = (None, usable)) /\
  ((2 <= usable)%nat ->
   exists profile,
     aggregate images = (Some profile, usable) /\
     num_photos profile = Z.of_nat usable /\
     training_quality profile = INR usable / INR (List.length images) /\
     individual_features profile = accepted images).
Proof.
  intro usable. rewrite aggregate_unfold. cbv zeta. fold usable. split.
  - intro H. apply Nat.ltb_lt in H. rewrite H. reflexivity.
  - intro H. apply Nat.ltb_ge in H. rewrite H.
    eexists. split; [reflexivity|]. repeat split.
Qed.

End Enrollment.

(** ** The ensemble embedding *)

Lemma add_comm (a b : vec) : Np.add a b = Np.add b a.
Proof.
  revert b. induction a as [|x a IH]; intros [|y b]; try reflexivity.
  unfold Np.add in *. cbn [combine map fst snd]. rewrite IH. f_equal. ring.
Qed.

Lemma add_assoc (a b c : vec) : Np.add (Np.add a b) c = Np.add a (Np.add b c).
Proof.
  revert b c. induction a as [|x a IH]; intros [|y b] [|z c]; try reflexivity.
  unfold Np.add in *. cbn [combine map fst snd]. rewrite IH. f_equal. ring.
Qed.

Lemma fold_add_permutation (l l' : list vec) :
  Permutation l l' ->
  forall a, fold_left Np.add l a = fold_left Np.add l' a.
Proof.
  induction 1 as [|x l l' _ IH|x y l|l l' l'' _ IH1 _ IH2]; intro a.
  - reflexivity.
  - cbn [fold_left]. apply IH.
  - cbn [fold_left]. f_equal.
    rewrite !add_assoc. f_equal. apply add_comm.
  - rewrite IH1. apply IH2.
Qed.

(** The sum of a non-empty list of rows does not depend on which row the
    accumulation starts from. *)
Lemma sum_rows_permutation (r r' : vec) (rs rs' : list vec) :
  Permutation (r :: rs) (r' :: rs') ->
  fold_left Np.add rs r = fold_left Np.add rs' r'.
Proof.
  intro H.
  assert (In r (r' :: rs')) as Hin
    by (eapply Permutation_in; [exact H | now left]).
  destruct Hin as [-> | Hin].
  - apply Permutation_cons_inv in H. now apply fold_add_permutation.
  - apply in_split in Hin as (l1 & l2 & ->).
    assert (Permutation rs (r' :: l1 ++ l2)) as H1.
    { apply (Permutation_cons_app_inv (r' :: l1) l2 H). }
    assert (Permutation (l1 ++ r :: l2) (r :: l1 ++ l2)) as H2.
    { apply Permutation_sym, Permutation_middle. }
    rewrite (fold_add_permutation _ _ H1), (fold_add_permutation _ _ H2).
    cbn [fold_left]. f_equal. apply add_comm.
Qed.

Lemma mean0_permutation (rows rows' : list vec) :
  Permutation rows rows' -> Np.mean0 rows = Np.mean0 rows'.
Proof.
  intro H. pose proof (Permutation_length H) as Hlen.
  destruct rows as [|r rs], rows' as [|r' rs']; try discriminate.
  - reflexivity.
  - unfold Np.mean0. rewrite Hlen, (sum_rows_permutation r r' rs rs' H).
    reflexivity.
Qed.

Lemma add_length (a b : vec) :
  List.length a = List.length b -> List.length (Np.add a b) = List.length a.
Proof.
  revert b. induction a as [|x a IH]; intros [|y b] H; try discriminate.
  - reflexivity.
  - unfold Np.add in *. cbn [combine map List.length]. f_equal.
    apply IH. now injection H.
Qed.

Lemma add_nth (a b : vec) (i : nat) :
  List.length a = List.length b ->
  nth i (Np.add a b) 0 = nth i a 0 + nth i b 0.
Proof.
  revert b i. induction a as [|x a IH]; intros [|y b] i H; try discriminate.
  - destruct i; simpl; ring.
  - destruct i as [|i]; [reflexivity|].
    unfold Np.add in *. cbn [combine map nth]. apply IH. now injection H.
Qed.

Lemma div_nth (a : vec) (c : R) (i : nat) :
  nth i (Np.div a c) 0 = nth i a 0 / c.
Proof.
  revert i. induction a as [|x a IH]; intro i.
  - destruct i; simpl; unfold Rdiv; ring.
  - destruct i as [|i]; [reflexivity|]. apply IH.
Qed.

Lemma sum_rows_nth (rs : list vec) (r : vec) (i : nat) :
  Forall (fun v => List.length v = List.length r) rs ->
  List.length (fold_left Np.add rs r) = List.length r /\
  nth i (fold_left Np.add rs r) 0
  = nth i r 0 + Py.sum (map (fun v => nth i v 0) rs).
Proof.
  revert r. induction rs as [|v rs IH]; intros r Hall.
  - split; [reflexivity|]. simpl. ring.
  - apply Forall_cons_iff in Hall as [Hv Hall].
    assert (List.length (Np.add r v) = List.length r) as Hlen
      by (apply add_length; now symmetry).
    destruct (IH (Np.add r v)) as [IHlen IHnth].
    { eapply Forall_impl; [|exact Hall]. intros w Hw. cbv beta in *. lia. }
    cbn [fold_left map]. split; [lia|].
    rewrite IHnth, add_nth by (now symmetry).
    unfold Py.sum. cbn [fold_right]. ring.
Qed.

(** Elementwise, [np.mean(rows, axis=0)] is the arithmetic mean. *)
Lemma mean0_nth (rows : list vec) (i : nat) :
  (forall v w, In v rows -> In w rows -> List.length v = List.length w) ->
  nth i (Np.mean0 rows) 0
  = Py.sum (map (fun v => nth i v 0) rows) / INR (List.length rows).
Proof.
  intro Hsame. destruct rows as [|r rs].
  - simpl. destruct i; unfold Rdiv; ring.
  - unfold Np.mean0. rewrite div_nth.
    assert (Forall (fun v => List.length v = List.length r) rs) as Hall.
    { apply Forall_forall. intros v Hv.
      apply Hsame; [now right | now left]. }
    destruct (sum_rows_nth rs r i Hall) as [_ ->]. reflexivity.
Qed.

Lemma dot_self_nonneg (v : vec) : 0 <= Np.dot v v.
Proof.
  induction v as [|x v IH]; [unfold Np.dot; simpl; lra|].
  change (0 <= x * x + Np.dot v v). nra.
Qed.

Lemma dot_div (v : vec) (c : R) :
  Np.dot (Np.div v c) (Np.div v c) = Np.dot v v * (/ c * / c).
Proof.
  induction v as [|x v IH]; [unfold Np.dot; simpl; ring|].
  change (x / c * (x / c) + Np.dot (Np.div v c) (Np.div v c)
          = (x * x + Np.dot v v) * (/ c * / c)).
  rewrite IH. unfold Rdiv. ring.
Qed.

(** Dividing a vector by its norm gives a vector of norm 1. *)
Lemma renormalized_unit (v : vec) :
  Np.norm v <> 0 -> Np.norm (Np.div v (Np.norm v)) = 1.
Proof.
  intro Hn. unfold Np.norm at 1. rewrite dot_div.
  assert (Np.norm v * Np.norm v = Np.dot v v) as Hsq
    by (apply sqrt_sqrt, dot_self_nonneg).
  rewrite <- Hsq.
  replace (Np.norm v * Np.norm v * (/ Np.norm v * / Np.norm v)) with 1
    by (field; exact Hn).
  apply sqrt_1.
Qed.

Section Ensemble.
Variable image : Type.
Variable detect_faces : image -> list (detection image).
Variable extract_features : image -> option vec.

Local Abbreviation accepted :=
  (accepted_features image detect_faces extract_features).
Local Abbreviation aggregate :=
  (extract_features_from_multiple_images image detect_faces extract_features).

Lemma accepted_permutation (images images' : list image) :
  Permutation images images' ->
  Permutation (accepted images) (accepted images').
Proof.
  induction 1 as [|x l l' _ IH|x y l|l l' l'' _ IH1 _ IH2];
    cbn [accepted_features].
  - constructor.
  - destruct (primary_embedding _ _ _ x); [now constructor | exact IH].
  - destruct (primary_embedding _ _ _ x), (primary_embedding _ _ _ y);
      try apply Permutation_refl.
    apply perm_swap.
  - eapply Permutation_trans; eassumption.
Qed.

(** C8. When the aggregation succeeds, at least 2 embeddings were accepted;
    the ensemble embedding is their elementwise arithmetic mean divided by
    its own norm, which gives a vector of norm 1 (when the mean is not the
    zero vector); submitting the same images in another order gives the
    same ensemble embedding. *)
Theorem ensemble_is_renormalized_mean (images images' : list image)
  (profile : training_data) (valid_images : nat) :
  Permutation images images' ->
  aggregate images = (Some profile, valid_images) ->
  let rows := accepted images in
  let m := Np.mean0 rows in
  (2 <= List.length rows)%nat /\
  ((forall v w, In v rows -> In w rows -> List.length v = List.length w) ->
   forall i,
     nth i m 0
     = Py.sum (map (fun v => nth i v 0) rows) / INR (List.length rows)) /\
  ensemble_features profile = Np.div m (Np.norm m) /\
  (Np.norm m <> 0 -> Np.norm (ensemble_features profile) = 1) /\
  exists profile',
    aggregate images' = (Some profile', valid_images) /\
    ensemble_features profile' = ensemble_features profile.
Proof.
  intros Hperm Hagg rows m.
  pose proof (accepted_permutation images images' Hperm) as Hrows.
  pose proof (mean0_permutation _ _ Hrows) as Hmean.
  pose proof (Permutation_length Hrows) as Hlen.
  rewrite aggregate_unfold in Hagg. cbv zeta in Hagg. fold rows in Hagg.
  destruct (List.length rows <? 2)%nat eqn:E; [discriminate|].
  apply Nat.ltb_ge in E. injection Hagg as <- <-. cbn [ensemble_features].
  fold m. split; [exact E|]. split; [|split; [reflexivity|split]].
  - intros Hsame i. now apply mean0_nth.
  - apply renormalized_unit.
  - rewrite aggregate_unfold. cbv zeta. rewrite <- Hlen. fold rows.
    apply Nat.ltb_ge in E. rewrite E. eexists. split; [reflexivity|].
    cbn [ensemble_features]. rewrite <- Hmean. reflexivity.
Qed.

End Ensemble.

(** ** The gallery scan *)

Lemma compare_stored_match_positive (stored_data : stored) (u : vec) (s : R) :
  compare_stored stored_data u = (true, s) -> 0 < s.
Proof.
  intro H. destruct stored_data as [d | features]; cbn [compare_stored] in H.
  - pose proof (proj1 (advanced_decides d (Some u))) as Hdec.
    rewrite H in Hdec. cbn [fst snd] in Hdec.
    pose proof (thresholds_positive d) as [Hpos _].
    specialize (Hdec eq_refl). lra.
  - pose proof (simple_decides features (Some u) None) as Hdec.
    cbv zeta in Hdec. rewrite H in Hdec. cbn [fst snd] in Hdec.
    pose proof (thresholds_positive (mk_training_data [] [] 0 0)) as [_ Hpos].
    specialize (Hdec Hpos). apply proj1 in Hdec.
    specialize (Hdec eq_refl). lra.
Qed.

Lemma scan_snoc (g : Dir.t pickle_file) (e : string * pickle_file) (u : vec) :
  scan (g ++ [e]) u = scan_step u (scan g u) e.
Proof. unfold scan. rewrite fold_left_app. reflexivity. Qed.

Lemma is_candidate_snoc (g : Dir.t pickle_file) (file : string)
  (content : pickle_file) (u : vec) (f : string) (s : R) :
  is_candidate (g ++ [(file, content)]) u f s <->
  is_candidate g u f s \/
  (f = file /\ Py.endswith file ".pickle" = true /\
   exists stored_data,
     content = Some stored_data /\ compare_stored stored_data u = (true, s)).
Proof.
  unfold is_candidate. split.
  - intros (sd & Hin & Hend & Hcmp). apply in_app_or in Hin as [Hin | Hin].
    + left. exists sd. auto.
    + right. destruct Hin as [[= <- ->] | []].
      split; [reflexivity|]. split; [exact Hend|]. exists sd. split; auto.
  - intros [(sd & Hin & Hend & Hcmp) | (-> & Hend & sd & -> & Hcmp)].
    + exists sd. split; [apply in_or_app; now left | auto].
    + exists sd. split; [apply in_or_app; right; now left | auto].
Qed.

Lemma scan_invariant_holds (g : Dir.t pickle_file) (u : vec) :
  scan_invariant g u (scan g u).
Proof.
  induction g as [|[file content] g IH] using rev_ind.
  - cbn. split; [reflexivity|]. intros f s (sd & [] & _).
  - rewrite scan_snoc. destruct (scan g u) as [best_match best_score].
    unfold scan_step.
    assert (Hnew : ~ (Py.endswith file ".pickle" = true /\
                      exists sd, content = Some sd /\
                                 exists s, compare_stored sd u = (true, s)) ->
                   scan_invariant (g ++ [(file, content)]) u
                     (best_match, best_score)).
    { intro Hno. unfold scan_invariant in *. cbn [fst snd] in *.
      destruct best_match as [user_id|].
      - destruct IH as (f0 & Hc & Hk & Hmax). exists f0.
        split; [apply is_candidate_snoc; now left|]. split; [exact Hk|].
        intros f s Hf. apply is_candidate_snoc in Hf as [Hf | Hf].
        + exact (Hmax f s Hf).
        + exfalso. apply Hno. destruct Hf as (_ & Hend & sd & Hsd & Hcmp).
          split; [exact Hend|]. exists sd. split; [exact Hsd|]. now exists s.
      - destruct IH as [Hz Hnone]. split; [exact Hz|].
        intros f s Hf. apply is_candidate_snoc in Hf as [Hf | Hf].
        + now apply (Hnone f s).
        + apply Hno. destruct Hf as (_ & Hend & sd & Hsd & Hcmp).
          split; [exact Hend|]. exists sd. split; [exact Hsd|]. now exists s. }
    destruct (Py.endswith file ".pickle") eqn:Hend;
      [|apply Hnew; intros [H _]; discriminate].
    destruct content as [sd|];
      [|apply Hnew; intros (_ & sd & H & _); discriminate].
    destruct (compare_stored sd u) as [is_match score] eqn:Hcmp.
    destruct is_match;
      [|apply Hnew; intros (_ & sd' & [= <-] & s & Hs); congruence].
    pose proof (compare_stored_match_positive sd u score Hcmp) as Hpos.
    cbn [andb]. destruct (Py.gtb score best_score) eqn:Hgt.
    + apply gtb_true_iff in Hgt.
      unfold scan_invariant in *. cbn [fst snd] in *. exists file.
      split; [|split; [reflexivity|]].
      * apply is_candidate_snoc. right. split; [reflexivity|].
        split; [exact Hend|]. now exists sd.
      * intros f s Hf. apply is_candidate_snoc in Hf as [Hf | Hf].
        -- destruct best_match as [user_id|].
           ++ destruct IH as (_ & _ & _ & Hmax). specialize (Hmax f s Hf). lra.
           ++ destruct IH as [_ Hnone]. destruct (Hnone f s Hf).
        -- destruct Hf as (_ & _ & sd' & [= <-] & Hs).
           rewrite Hcmp in Hs. injection Hs as <-. lra.
    + apply gtb_false_iff in Hgt.
      unfold scan_invariant in *. cbn [fst snd] in *.
      destruct best_match as [user_id|].
      * destruct IH as (f0 & Hc & Hk & Hmax). exists f0.
        split; [apply is_candidate_snoc; now left|]. split; [exact Hk|].
        intros f s Hf. apply is_candidate_snoc in Hf as [Hf | Hf].
        -- exact (Hmax f s Hf).
        -- destruct Hf as (_ & _ & sd' & [= <-] & Hs).
           rewrite Hcmp in Hs. injection Hs as <-. exact Hgt.
      * destruct IH as [Hz _]. lra.
Qed.

Lemma truthy_nonempty (s : string) : s <> EmptyString -> PyStr.truthy s = true.
Proof.
  intro H. unfold PyStr.truthy. destruct (String.eqb s EmptyString) eqn:E.
  - apply String.eqb_eq in E. contradiction.
  - reflexivity.
Qed.

(** C1. On a gallery whose identity keys are not empty, the scan returns
    the key of a matching profile whose score no matching profile of the
    gallery exceeds (every readable [.pickle] file counts, compared by the
    advanced comparison when it has the multi-photo format and by the simple
    one otherwise), and ['unknown_person'] when no profile matches. *)
Theorem gallery_scan_best_match (gallery : Dir.t pickle_file) (unknown : vec) :
  keys_nonempty gallery ->
  (exists file score,
      is_candidate gallery unknown file score /\
      identify gallery unknown = Py.drop_last 7 file /\
      forall file' score',
        is_candidate gallery unknown file' score' -> score' <= score)
  \/
  ((forall file score, ~ is_candidate gallery unknown file score) /\
   identify gallery unknown = unknown_person).
Proof.
  intro Hkeys. pose proof (scan_invariant_holds gallery unknown) as Hinv.
  unfold identify, scan_invariant in *.
  destruct (scan gallery unknown) as [[user_id|] best_score];
    cbn [fst snd] in *.
  - left. destruct Hinv as (file & Hc & -> & Hmax).
    exists file, best_score. split; [exact Hc|]. split; [|exact Hmax].
    destruct Hc as (sd & Hin & Hend & _).
    cbn [scan_result]. rewrite truthy_nonempty; [reflexivity|].
    exact (Hkeys file (Some sd) Hin Hend).
  - right. destruct Hinv as [_ Hnone]. split; [exact Hnone | reflexivity].
Qed.

Lemma scan_step_unreadable (u : vec) (acc : option string * R) (file : string) :
  scan_step u acc (file, None) = acc.
Proof.
  unfold scan_step. destruct acc as [best_match best_score].
  destruct (Py.endswith file ".pickle"); reflexivity.
Qed.

Lemma scan_step_first_match (u : vec) (file : string) (sd : stored) (s : R) :
  Py.endswith file ".pickle" = true ->
  compare_stored sd u = (true, s) ->
  scan_step u (None, 0) (file, Some sd) = (Some (Py.drop_last 7 file), s).
Proof.
  intros Hend Hcmp. unfold scan_step. rewrite Hend, Hcmp. cbn [andb].
  pose proof (compare_stored_match_positive sd u s Hcmp) as Hpos.
  apply gtb_true_iff in Hpos. rewrite Hpos. reflexivity.
Qed.

(** A gallery with one readable, matching profile identifies it. *)
Lemma identify_single_match (u : vec) (file : string) (sd : stored) (s : R) :
  Py.endswith file ".pickle" = true ->
  Py.drop_last 7 file <> EmptyString ->
  compare_stored sd u = (true, s) ->
  identify [(file, Some sd)] u = Py.drop_last 7 file.
Proof.
  intros Hend Hkey Hcmp. unfold identify, scan. cbn [fold_left].
  rewrite (scan_step_first_match u file sd s Hend Hcmp).
  cbn [fst scan_result]. rewrite truthy_nonempty by exact Hkey. reflexivity.
Qed.

(** C6. A profile that cannot be opened or unpickled does not change the
    outcome of the scan of the rest of the gallery; in particular a
    gallery of one such profile and one valid matching profile, in either
    order, is identified as the valid profile. *)
Theorem corrupt_profile_is_skipped :
  (forall (g1 g2 : Dir.t pickle_file) (file : string) (unknown : vec),
      identify (g1 ++ (file, None) :: g2) unknown
      = identify (g1 ++ g2) unknown) /\
  (forall (bad good : string) (valid : stored) (unknown : vec) (score : R),
      Py.endswith good ".pickle" = true ->
      Py.drop_last 7 good <> EmptyString ->
      compare_stored valid unknown = (true, score) ->
      identify [(bad, None); (good, Some valid)] unknown
      = Py.drop_last 7 good /\
      identify [(good, Some valid); (bad, None)] unknown
      = Py.drop_last 7 good).
Proof.
  split.
  - intros g1 g2 file unknown. unfold identify, scan.
    rewrite !fold_left_app. cbn [fold_left].
    rewrite scan_step_unreadable. reflexivity.
  - intros bad good valid unknown score Hend Hkey Hcmp.
    pose proof (identify_single_match unknown good valid score Hend Hkey Hcmp)
      as Hone.
    unfold identify, scan in *. cbn [fold_left] in *.
    rewrite !scan_step_unreadable. split; exact Hone.
Qed.

(** ** Files *)

Section DirFacts.
Context {A : Type}.
Implicit Types (d : Dir.t A) (n : string).

Lemma find_file_remove n n' d :
  Dir.find_file n (Dir.remove_file n' d)
  = if String.eqb n n' then None else Dir.find_file n d.
Proof.
  unfold Dir.find_file, Dir.remove_file.
  induction d as [|[k v] d IH]; cbn [filter find fst].
  - destruct (String.eqb n n'); reflexivity.
  - destruct (String.eqb k n') eqn:Ekn'; cbn [negb find fst].
    + rewrite IH. destruct (String.eqb n n') eqn:Enn'; [reflexivity|].
      destruct (String.eqb k n) eqn:Ekn; [|reflexivity].
      apply String.eqb_eq in Ekn, Ekn'. subst.
      rewrite String.eqb_refl in Enn'. discriminate.
    + destruct (String.eqb k n) eqn:Ekn.
      * apply String.eqb_eq in Ekn. subst k. rewrite Ekn'. reflexivity.
      * exact IH.
Qed.

Lemma find_file_remove_same n d : Dir.find_file n (Dir.remove_file n d) = None.
Proof. rewrite find_file_remove, String.eqb_refl. reflexivity. Qed.


Lemma remove_file_app n d d' :
  Dir.remove_file n (d ++ d') = Dir.remove_file n d ++ Dir.remove_file n d'.
Proof. apply filter_app. Qed.

Lemma remove_file_idem n d :
  Dir.remove_file n (Dir.remove_file n d) = Dir.remove_file n d.
Proof.
  unfold Dir.remove_file. induction d as [|[k v] d IH]; cbn [filter fst].
  - reflexivity.
  - destruct (String.eqb k n) eqn:E; cbn [negb filter fst].
    + exact IH.
    + rewrite E. cbn [negb]. f_equal. exact IH.
Qed.

Lemma remove_written n (c : A) d :
  Dir.remove_file n (Dir.write_file n c d) = Dir.remove_file n d.
Proof.
  unfold Dir.write_file. rewrite remove_file_app, remove_file_idem.
  unfold Dir.remove_file at 2. cbn [filter fst].
  rewrite String.eqb_refl. cbn [negb]. apply app_nil_r.
Qed.

Lemma find_file_app n d d' :
  Dir.find_file n (d ++ d')
  = match Dir.find_file n d with
    | Some c => Some c
    | None => Dir.find_file n d'
    end.
Proof.
  unfold Dir.find_file. induction d as [|[k v] d IH]; cbn [app find fst].
  - reflexivity.
  - destruct (String.eqb k n); [reflexivity | exact IH].
Qed.

Lemma written_exists n (c : A) d :
  Dir.exists_file n (Dir.write_file n c d) = true.
Proof.
  unfold Dir.exists_file, Dir.write_file.
  rewrite find_file_app, find_file_remove_same.
  unfold Dir.find_file. cbn [find fst]. rewrite String.eqb_refl. reflexivity.
Qed.

Lemma remove_absent n d :
  Dir.find_file n d = None -> Dir.remove_file n d = d.
Proof.
  unfold Dir.find_file, Dir.remove_file.
  induction d as [|[k v] d IH]; cbn [filter find fst]; [reflexivity|].
  destruct (String.eqb k n); cbn [negb option_map]; [discriminate|].
  intro H. f_equal. exact (IH H).
Qed.

End DirFacts.

(** ** Registration *)

Section Registration.
Variable image : Type.
Variable detect_faces : image -> list (detection image).
Variable extract_features : image -> option vec.
Variable decode_image : string -> option image.
Variable select_user : list user_row -> string -> list user_row.
Variable lower_emails : list user_row -> option (list string).
Variable concat_rows : list user_row -> user_row -> list user_row.

Local Abbreviation recognize :=
  (recognize_user_enhanced image detect_faces extract_features).
Local Abbreviation register_ :=
  (register image detect_faces extract_features decode_image select_user
     lower_emails concat_rows).
Local Abbreviation decode := (decode_all image decode_image).

Lemma decode_all_length (images_data : list string) (i : nat)
  (images : list image) :
  decode i images_data = inr images ->
  List.length images = List.length images_data.
Proof.
  revert i images.
  induction images_data as [|img_data rest IH]; intros i images H;
    cbn [decode_all] in H.
  - injection H as <-. reflexivity.
  - destruct (decode_image img_data); [|discriminate].
    destruct (decode (S i) rest) as [k|decoded] eqn:E; [discriminate|].
    injection H as <-. cbn [List.length]. f_equal. exact (IH _ _ E).
Qed.

Lemma save_user_data_failed (w w' : world image) (user_data : form)
  (user_id now : string) :
  save_user_data image concat_rows w user_data user_id now = (false, w')
  -> w' = w.
Proof.
  unfold save_user_data.
  destruct (users_csv w) as [rows|]; [destruct (csv_read_ok w)|];
    try destruct (csv_write_ok w); intros [= <-]; reflexivity.
Qed.



(** X22. When the first submitted image is recognised as a known identity,
    [register] writes nothing and does not succeed; a request that got past
    the earlier checks (at least 2 images, all decodable, e-mail not taken)
    is answered with the name the user table returns for the identity
    found, or with the identity itself when the table returns no row. *)
Theorem duplicate_face_is_rejected (w : world image) (data : request)
  (uuid8 now : string) (first_image : image) (rest : list image)
  (matched_user_id : string) :
  decode 0 (req_images data) = inr (first_image :: rest) ->
  recognize (pickles w) first_image = matched_user_id ->
  matched_user_id <> no_persons_found ->
  matched_user_id <> unknown_person ->
  let email := PyStr.lower (PyStr.strip (form_email (req_form data))) in
  snd (register_ w data uuid8 now) = w /\
  is_success (fst (register_ w data uuid8 now)) = false /\
  (rest <> [] ->
   (PyStr.truthy email && email_exists image lower_emails w email)%bool
   = false ->
   fst (register_ w data uuid8 now)
   = Face_already_registered
       (surfaced_name image select_user w matched_user_id)).
Proof.
  intros Hdec Hrec Hnf Hup email.
  pose proof (decode_all_length _ _ _ Hdec) as Hlen. cbn [List.length] in Hlen.
  apply String.eqb_neq in Hnf, Hup.
  unfold register. fold email.
  destruct (req_images data) as [|img_data images_data] eqn:Himgs;
    [discriminate|].
  destruct (List.length (img_data :: images_data) <? 2)%nat eqn:Hfew.
  - split; [reflexivity|]. split; [reflexivity|].
    intros Hrest _. apply Nat.ltb_lt in Hfew. cbn [List.length] in Hfew.
    destruct rest; [contradiction|]. cbn [List.length] in Hlen. lia.
  - destruct (PyStr.truthy email
              && email_exists image lower_emails w email)%bool eqn:Hmail.
    + split; [reflexivity|]. split; [reflexivity|]. intros _ H. discriminate.
    + rewrite Hdec, Hrec, Hnf, Hup. cbn [orb negb fst snd].
      split; [reflexivity|]. split; [reflexivity|]. intros _ _. reflexivity.
Qed.


End Registration.

(** * The statements at work on the small installation *)

Example endswith_pickle :
  Py.endswith "a1b2c3d4.pickle" ".pickle" = true /\
  Py.endswith "notes.txt" ".pickle" = false /\
  Py.endswith "pickle" ".pickle" = false.
Proof. repeat split. Qed.

Example drop_last_pickle :
  Py.drop_last 7 "a1b2c3d4.pickle" = "a1b2c3d4"%string /\
  Py.drop_last 7 ".pickle" = EmptyString.
Proof. split; reflexivity. Qed.

Example photo_name_first : photo_name "a1b2c3d4" 0 = "a1b2c3d4_1.jpg"%string.
Proof. reflexivity. Qed.

Example photo_name_tenth : photo_name "a1b2c3d4" 9 = "a1b2c3d4_10.jpg"%string.
Proof. reflexivity. Qed.

Example email_normalized :
  PyStr.lower (PyStr.strip " Ann@Example.org ") = "ann@example.org"%string.
Proof. reflexivity. Qed.

Example largest_of_two :
  largest_face (Example.detect_faces 1%nat)
  = Some (mk_detection 1%nat (4, 4, 10, 10)%Z 0.9).
Proof. reflexivity. Qed.

Lemma example_cos : Np.cos [1; 0] [1; 0] = 1.
Proof.
  unfold Np.cos, Np.norm, Np.dot. cbn [combine map fst snd Py.sum fold_right].
  replace (1 * 1 + (0 * 0 + 0)) with 1 by ring. rewrite sqrt_1. field.
Qed.

Lemma example_compare :
  compare_stored (old_format (Some [1; 0])) [1; 0] = (true, 1).
Proof.
  cbn [compare_stored]. unfold Recognizer.compare_features_simple.
  rewrite (cosine_similarity_same_length [1; 0] [1; 0]);
    [|discriminate|reflexivity].
  rewrite example_cos. f_equal. apply geb_true_iff.
  unfold Recognizer.strict_threshold. lra.
Qed.

Lemma example_keys_nonempty : keys_nonempty Example.gallery.
Proof.
  intros file content [[= <- <-] | []] _. cbv. discriminate.
Qed.

Lemma example_identify : identify Example.gallery [1; 0] = "a1b2c3d4"%string.
Proof.
  apply (identify_single_match [1; 0] "a1b2c3d4.pickle"
           (old_format (Some [1; 0])) 1).
  - reflexivity.
  - cbv. discriminate.
  - exact example_compare.
Qed.

(** A matching profile stored in a file named [.pickle] has the empty
    string for key, which the last line of the scan reads as "no match";
    [keys_nonempty] excludes it. *)
Remark empty_key_reads_as_no_match :
  identify [(".pickle"%string, Some (old_format (Some [1; 0])))] [1; 0]
  = unknown_person.
Proof.
  unfold identify, scan. cbn [fold_left].
  rewrite (scan_step_first_match [1; 0] ".pickle"
             (old_format (Some [1; 0])) 1 eq_refl example_compare).
  reflexivity.
Qed.

Lemma gallery_scan_best_match_witness :
  keys_nonempty Example.gallery /\
  ((exists file score,
       is_candidate Example.gallery [1; 0] file score /\
       identify Example.gallery [1; 0] = Py.drop_last 7 file /\
       forall file' score',
         is_candidate Example.gallery [1; 0] file' score' ->
         score' <= score)
   \/
   ((forall file score, ~ is_candidate Example.gallery [1; 0] file score) /\
    identify Example.gallery [1; 0] = unknown_person)).
Proof.
  split; [exact example_keys_nonempty|].
  apply (gallery_scan_best_match Example.gallery [1; 0]).
  exact example_keys_nonempty.
Defined.

Lemma dynamic_threshold_selection_witness :
  (num_photos Example.profile = 2)%Z /\
  Recognizer.dynamic_threshold Example.profile = 0.75.
Proof.
  split; [reflexivity|].
  apply (dynamic_threshold_selection Example.profile [1; 0] None).
  reflexivity.
Defined.

Lemma advanced_score_formula_witness :
  well_formed_profile Example.profile [1; 0] /\
  let sims :=
    map (fun v => Np.cos v [1; 0]) (individual_features Example.profile) in
  exists best avg : R,
    In best sims /\
    (forall s, In s sims -> s <= best) /\
    avg * INR (List.length sims) = Py.sum sims /\
    snd (Recognizer.compare_features_advanced (Some Example.profile)
           (Some [1; 0]))
    = (0.4 * Np.cos (ensemble_features Example.profile) [1; 0]
       + 0.3 * best + 0.3 * avg)
      * Rmin (training_quality Example.profile) 1.
Proof.
  assert (well_formed_profile Example.profile [1; 0]) as Hwf.
  { split; [discriminate|]. split; [reflexivity|]. split; [discriminate|].
    repeat constructor. }
  split; [exact Hwf|].
  apply (advanced_score_formula Example.profile [1; 0] Hwf).
Defined.

Lemma aggregation_floor_witness :
  (List.length
     (accepted_features Example.image Example.detect_faces
        Example.extract_features [1; 2; 0]%nat) = 2)%nat /\
  exists profile,
    extract_features_from_multiple_images Example.image
      Example.detect_faces Example.extract_features [1; 2; 0]%nat
    = (Some profile, 2%nat) /\
    num_photos profile = 2%Z /\
    training_quality profile = INR 2 / INR 3 /\
    individual_features profile = [[1; 0]; [1; 0]].
Proof.
  split; [reflexivity|].
  apply (aggregation_floor Example.image Example.detect_faces
           Example.extract_features [1; 2; 0]%nat).
  cbv. lia.
Defined.

Lemma duplicate_face_is_rejected_witness :
  decode_all Example.image Example.decode_image 0
    (req_images Example.two_photos) = inr [1; 2]%nat /\
  recognize_user_enhanced Example.image Example.detect_faces
    Example.extract_features (pickles Example.enrolled_world) 1%nat
  = "a1b2c3d4"%string /\
  register Example.image Example.detect_faces Example.extract_features
    Example.decode_image Example.select_user
    Example.lower_emails Example.concat_rows Example.enrolled_world
    Example.two_photos "deadbeef" "2024-01-01T00:00:00"
  = (Face_already_registered "a1b2c3d4", Example.enrolled_world).
Proof.
  assert (recognize_user_enhanced Example.image Example.detect_faces
            Example.extract_features (pickles Example.enrolled_world) 1%nat
          = "a1b2c3d4"%string) as Hrec by exact example_identify.
  split; [reflexivity|]. split; [exact Hrec|].
  destruct (duplicate_face_is_rejected Example.image Example.detect_faces
              Example.extract_features Example.decode_image
              Example.select_user Example.lower_emails Example.concat_rows
              Example.enrolled_world Example.two_photos
              "deadbeef" "2024-01-01T00:00:00" 1%nat [2%nat] "a1b2c3d4"
              eq_refl Hrec)
    as (Hworld & _ & Hanswer); try discriminate.
  apply injective_projections; cbn [fst snd].
  - apply Hanswer; [discriminate | reflexivity].
  - exact Hworld.
Defined.

Lemma corrupt_profile_is_skipped_witness :
  identify [("broken.pickle"%string, None);
            ("a1b2c3d4.pickle"%string, Some (old_format (Some [1; 0])))]
    [1; 0]
  = "a1b2c3d4"%string.
Proof.
  apply (proj2 corrupt_profile_is_skipped "broken.pickle"%string
           "a1b2c3d4.pickle"%string (old_format (Some [1; 0])) [1; 0] 1).
  - reflexivity.
  - cbv. discriminate.
  - exact example_compare.
Defined.

Lemma null_input_is_non_match_witness :
  Recognizer.compare_features_advanced (Some Example.profile) None = (false, 0)
  /\ Recognizer.compare_features_simple None (Some [1; 0]) None = (false, 0).
Proof.
  split.
  - apply (proj1 null_input_is_non_match). right. reflexivity.
  - apply (proj2 null_input_is_non_match). left. reflexivity.
Defined.

Lemma ensemble_is_renormalized_mean_witness :
  Permutation [1; 2; 0]%nat [0; 2; 1]%nat /\
  exists profile',
    extract_features_from_multiple_images Example.image Example.detect_faces
      Example.extract_features [0; 2; 1]%nat
    = (Some profile', 2%nat) /\
    ensemble_features profile' = ensemble_features Example.profile.
Proof.
  assert (Permutation [1; 2; 0]%nat [0; 2; 1]%nat) as Hperm.
  { apply Permutation_trans with [1; 0; 2]%nat.
    - apply perm_skip, perm_swap.
    - apply Permutation_trans with [0; 1; 2]%nat.
      + apply perm_swap.
      + apply perm_skip, perm_swap. }
  split; [exact Hperm|].
  refine (proj2 (proj2 (proj2 (proj2
    (ensemble_is_renormalized_mean Example.image Example.detect_faces
       Example.extract_features [1; 2; 0]%nat [0; 2; 1]%nat
       (mk_training_data (ensemble_features Example.profile)
          (individual_features Example.profile) 2 (INR 2 / INR 3))
       2%nat Hperm _))))).
  reflexivity.
Defined.

Lemma largest_face_selection_witness :
  Example.detect_faces 1%nat <> [] /\
  exists f,
    largest_face (Example.detect_faces 1%nat) = Some f /\
    In f (Example.detect_faces 1%nat) /\
    forall g, In g (Example.detect_faces 1%nat) ->
              (bbox_area g <= bbox_area f)%Z.
Proof.
  assert (Example.detect_faces 1%nat <> []) as Hne by discriminate.
  split; [exact Hne|].
  apply (proj1 (proj2 (largest_face_selection Example.image
                         Example.detect_faces Example.extract_features))).
  exact Hne.
Defined.


(** * Further properties of the engine *)

(** ** Cosine similarity *)

Lemma dot_comm (x y : vec) : Np.dot x y = Np.dot y x.
Proof.
  revert y. induction x as [|a x IH]; intros [|b y]; try reflexivity.
  change (a * b + Np.dot x y = b * a + Np.dot y x). rewrite IH. ring.
Qed.

Lemma cauchy_schwarz (x y : vec) :
  Np.dot x y * Np.dot x y <= Np.dot x x * Np.dot y y.
Proof.
  revert y. induction x as [|a x IH]; intros [|b y].
  - unfold Np.dot; simpl; lra.
  - unfold Np.dot; simpl; lra.
  - pose proof (dot_self_nonneg (a :: x)).
    change (Np.dot (a :: x) []) with 0. change (Np.dot [] []) with 0. lra.
  - change (Np.dot (a :: x) (b :: y)) with (a * b + Np.dot x y).
    change (Np.dot (a :: x) (a :: x)) with (a * a + Np.dot x x).
    change (Np.dot (b :: y) (b :: y)) with (b * b + Np.dot y y).
    specialize (IH y).
    pose proof (dot_self_nonneg x) as HA.
    pose proof (dot_self_nonneg y) as HB.
    set (D := Np.dot x y) in *. set (A := Np.dot x x) in *.
    set (B := Np.dot y y) in *.
    assert (2 * (a * b) * D <= a * a * B + b * b * A) as Hmix.
    { assert (0 <= a * a * B + b * b * A) as HT by nra.
      destruct (Rle_dec (2 * (a * b) * D) (a * a * B + b * b * A));
        [assumption|exfalso].
      assert (4 * (a * a) * (b * b) * (D * D)
              <= 4 * (a * a) * (b * b) * (A * B)) as H1.
      { apply Rmult_le_compat_l; [nra | exact IH]. }
      set (P := 2 * (a * b) * D) in *. set (T := a * a * B + b * b * A) in *.
      assert (T * T < P * P) as H2.
      { assert (0 < (P - T) * (P + T)) by (apply Rmult_lt_0_compat; lra).
        lra. }
      assert (P * P = 4 * (a * a) * (b * b) * (D * D)) as H3
        by (unfold P; ring).
      assert (T * T = (a * a * B - b * b * A) * (a * a * B - b * b * A)
                      + 4 * (a * a) * (b * b) * (A * B)) as H4
        by (unfold T; ring).
      pose proof (Rle_0_sqr (a * a * B - b * b * A)) as H5.
      unfold Rsqr in H5. lra. }
    nra.
Qed.

Lemma dot_le_norms (x y : vec) :
  Rabs (Np.dot x y) <= Np.norm x * Np.norm y.
Proof.
  unfold Np.norm. rewrite <- sqrt_mult by apply dot_self_nonneg.
  rewrite <- sqrt_Rsqr_abs. apply sqrt_le_1_alt. unfold Rsqr.
  apply cauchy_schwarz.
Qed.

(** The cosine similarity lies in [[-1, 1]]. *)
Lemma cos_bounds (x y : vec) : -1 <= Np.cos x y <= 1.
Proof.
  unfold Np.cos. pose proof (dot_le_norms x y) as H.
  set (N := Np.norm x * Np.norm y) in *.
  assert (0 <= N) as HN by (apply Rmult_le_pos; apply sqrt_pos).
  destruct (Req_dec N 0) as [HZ | HZ].
  - rewrite HZ. unfold Rdiv. rewrite Rinv_0. lra.
  - assert (0 < N) as Hpos by lra.
    pose proof (Rle_abs (Np.dot x y)) as H1.
    pose proof (Rle_abs (- Np.dot x y)) as H2. rewrite Rabs_Ropp in H2.
    split.
    + apply Rmult_le_reg_r with N; [exact Hpos|].
      unfold Rdiv. rewrite Rmult_assoc, Rinv_l by exact HZ. lra.
    + apply Rmult_le_reg_r with N; [exact Hpos|].
      unfold Rdiv. rewrite Rmult_assoc, Rinv_l by exact HZ. lra.
Qed.

Lemma cos_self (x : vec) : Np.norm x <> 0 -> Np.cos x x = 1.
Proof.
  intro H. unfold Np.cos.
  assert (Np.norm x * Np.norm x = Np.dot x x) as Hsq
    by (apply sqrt_sqrt, dot_self_nonneg).
  rewrite <- Hsq. field. exact H.
Qed.

Lemma cos_comm (x y : vec) : Np.cos x y = Np.cos y x.
Proof.
  unfold Np.cos. rewrite dot_comm, (Rmult_comm (Np.norm x)). reflexivity.
Qed.

Lemma cosine_similarity_comm (a b : option vec) :
  Np.cosine_similarity a b = Np.cosine_similarity b a.
Proof.
  destruct a as [x|], b as [y|]; try reflexivity.
  unfold Np.cosine_similarity.
  destruct (Nat.eqb_spec (List.length x) (List.length y)) as [E | E].
  - rewrite E, Nat.eqb_refl, cos_comm. reflexivity.
  - destruct (Nat.eqb_spec (List.length y) (List.length x)) as [E' | E'].
    + symmetry in E'. contradiction.
    + reflexivity.
Qed.

Lemma cosine_similarity_bounds (a b : option vec) (s : R) :
  Np.cosine_similarity a b = Some s -> -1 <= s <= 1.
Proof.
  destruct a as [x|], b as [y|]; try discriminate.
  unfold Np.cosine_similarity. destruct (_ && _)%bool; [|discriminate].
  intros [= <-]. apply cos_bounds.
Qed.

(** X1. The simple comparison does not depend on the order of its two
    embeddings. *)
Theorem simple_comparison_symmetric (features1 features2 : option vec)
  (threshold : option R) :
  Recognizer.compare_features_simple features1 features2 threshold
  = Recognizer.compare_features_simple features2 features1 threshold.
Proof.
  unfold Recognizer.compare_features_simple.
  rewrite (cosine_similarity_comm features1 features2). reflexivity.
Qed.

(** X2. The score of the simple comparison lies between -1 and 1. *)
Theorem simple_score_bounded (features1 features2 : option vec)
  (threshold : option R) :
  -1 <= snd (Recognizer.compare_features_simple features1 features2 threshold)
     <= 1.
Proof.
  unfold Recognizer.compare_features_simple.
  destruct (Np.cosine_similarity features1 features2) as [s|] eqn:E;
    cbn [snd].
  - exact (cosine_similarity_bounds _ _ _ E).
  - lra.
Qed.

(** X3. An embedding of norm 1, as [extract_features] returns them,
    matches itself under the default threshold, with score 1. *)
Theorem simple_self_match (features : vec) :
  Np.norm features = 1 ->
  Recognizer.compare_features_simple (Some features) (Some features) None
  = (true, 1).
Proof.
  intro Hn.
  assert (Np.norm features <> 0) as Hnz by lra.
  assert (features <> []) as Hne.
  { intros ->. apply Hnz. unfold Np.norm, Np.dot. simpl. apply sqrt_0. }
  unfold Recognizer.compare_features_simple.
  rewrite (cosine_similarity_same_length features features Hne eq_refl).
  rewrite (cos_self features Hnz). f_equal. apply geb_true_iff.
  unfold Recognizer.strict_threshold. lra.
Qed.

(** ** Bounds on the advanced score *)

Lemma traverse_Forall {A B : Type} (f : A -> option B) (P : B -> Prop)
  (l : list A) (bs : list B) :
  (forall a b, f a = Some b -> P b) ->
  Py.traverse f l = Some bs -> Forall P bs.
Proof.
  intro Hf. revert bs. induction l as [|a l IH]; intros bs H;
    cbn [Py.traverse] in H.
  - injection H as <-. constructor.
  - destruct (f a) as [b|] eqn:E; [|discriminate]. cbn [Py.bind] in H.
    destruct (Py.traverse f l) as [bs'|]; [|discriminate].
    injection H as <-. constructor; [eapply Hf; exact E | now apply IH].
Qed.

Lemma sum_bounds (l : list R) :
  Forall (fun s => -1 <= s <= 1) l ->
  - INR (List.length l) <= Py.sum l <= INR (List.length l).
Proof.
  induction 1 as [|s l Hs _ IH].
  - simpl. lra.
  - change (Py.sum (s :: l)) with (s + Py.sum l).
    change (List.length (s :: l)) with (S (List.length l)).
    rewrite S_INR. lra.
Qed.

Lemma best_of_bounds (sims : list R) :
  Forall (fun s => -1 <= s <= 1) sims -> -1 <= Recognizer.best_of sims <= 1.
Proof.
  intro H. destruct sims as [|s sims].
  - unfold Recognizer.best_of. simpl. lra.
  - destruct (best_of_spec (s :: sims)) as [Hin _]; [discriminate|].
    rewrite Forall_forall in H. exact (H _ Hin).
Qed.

Lemma avg_of_bounds (sims : list R) :
  Forall (fun s => -1 <= s <= 1) sims -> -1 <= Recognizer.avg_of sims <= 1.
Proof.
  intro H. destruct sims as [|s sims].
  - unfold Recognizer.avg_of. simpl. lra.
  - pose proof (avg_of_spec (s :: sims)) as Havg.
    pose proof (sum_bounds _ H) as Hsum.
    assert (0 < INR (List.length (s :: sims))) as Hn
      by (apply lt_0_INR; simpl; lia).
    specialize (Havg ltac:(discriminate)).
    set (a := Recognizer.avg_of (s :: sims)) in *.
    set (n := INR (List.length (s :: sims))) in *.
    split; apply Rmult_le_reg_r with n; try exact Hn; lra.
Qed.

(** The mean of the similarities never exceeds the best of them. *)
Lemma avg_le_best (sims : list R) :
  Recognizer.avg_of sims <= Recognizer.best_of sims.
Proof.
  destruct sims as [|s sims].
  - unfold Recognizer.avg_of, Recognizer.best_of. simpl. lra.
  - pose proof (avg_of_spec (s :: sims) ltac:(discriminate)) as Havg.
    destruct (best_of_spec (s :: sims) ltac:(discriminate)) as [_ Hmax].
    set (l := s :: sims) in *. set (b := Recognizer.best_of l) in *.
    assert (Py.sum l <= b * INR (List.length l)) as Hsum.
    { clearbody b. clear Havg. induction l as [|x l IH].
      - simpl. lra.
      - change (Py.sum (x :: l)) with (x + Py.sum l).
        change (List.length (x :: l)) with (S (List.length l)).
        rewrite S_INR.
        assert (x <= b) by (apply Hmax; now left).
        assert (Py.sum l <= b * INR (List.length l))
          by (apply IH; intros y Hy; apply Hmax; now right).
        lra. }
    assert (0 < INR (List.length l)) as Hn
      by (apply lt_0_INR; simpl; lia).
    apply Rmult_le_reg_r with (INR (List.length l)); [exact Hn | lra].
Qed.

Lemma advanced_try_bound (d : training_data) (u : vec) (m : bool) (s : R) :
  0 <= training_quality d ->
  Recognizer.advanced_try d u = Some (m, s) ->
  - Rmin (training_quality d) 1 <= s <= Rmin (training_quality d) 1.
Proof.
  intros Hq. unfold Recognizer.advanced_try.
  destruct (Np.cosine_similarity _ _) as [e|] eqn:He; [|discriminate].
  cbn [Py.bind].
  destruct (Recognizer.individual_similarities d u) as [sims|] eqn:Hs;
    [|discriminate].
  cbn [Py.bind]. intros [= _ <-].
  pose proof (cosine_similarity_bounds _ _ _ He) as Be.
  assert (Forall (fun s => -1 <= s <= 1) sims) as Hall.
  { unfold Recognizer.individual_similarities in Hs.
    eapply traverse_Forall; [|exact Hs].
    intros a b H. cbv beta in H. eapply cosine_similarity_bounds; exact H. }
  pose proof (best_of_bounds _ Hall) as Bb.
  pose proof (avg_of_bounds _ Hall) as Ba.
  rewrite py_min_Rmin.
  assert (0 <= Rmin (training_quality d) 1) as Hw
    by (apply Rmin_glb; lra).
  set (w := Rmin (training_quality d) 1) in *.
  set (c := e * 0.4 + Recognizer.best_of sims * 0.3
            + Recognizer.avg_of sims * 0.3).
  assert (-1 <= c <= 1) as Bc by (unfold c; lra).
  split; nra.
Qed.

Lemma advanced_snd_bound (d : training_data) (unknown : option vec) :
  0 <= training_quality d ->
  - Rmin (training_quality d) 1
  <= snd (Recognizer.compare_features_advanced (Some d) unknown)
  <= Rmin (training_quality d) 1.
Proof.
  intro Hq.
  assert (0 <= Rmin (training_quality d) 1) as Hw
    by (apply Rmin_glb; lra).
  unfold Recognizer.compare_features_advanced.
  destruct unknown as [u|]; cbn [snd]; [|lra].
  destruct (Recognizer.advanced_try d u) as [[m s]|] eqn:E; cbn [snd].
  - eapply advanced_try_bound; eassumption.
  - lra.
Qed.

(** X4. With a non-negative training quality the advanced score lies between
    [-min(quality, 1)] and [min(quality, 1)], whatever the embeddings. *)
Theorem advanced_score_bounded (d : training_data) (unknown : option vec) :
  0 <= training_quality d ->
  - Rmin (training_quality d) 1
  <= snd (Recognizer.compare_features_advanced (Some d) unknown)
  <= Rmin (training_quality d) 1.
Proof. apply advanced_snd_bound. Qed.

Lemma low_quality_no_match (d : training_data) (unknown : option vec) :
  0 <= training_quality d ->
  training_quality d < Recognizer.dynamic_threshold d ->
  fst (Recognizer.compare_features_advanced (Some d) unknown) = false.
Proof.
  intros Hq Hlow.
  destruct (fst (Recognizer.compare_features_advanced (Some d) unknown))
    eqn:E; [|reflexivity].
  apply advanced_decides in E.
  pose proof (advanced_snd_bound d unknown Hq) as [_ Hup].
  pose proof (Rmin_l (training_quality d) 1). lra.
Qed.

(** ** What the aggregation returns *)

Section AggregationFacts.
Variable image : Type.
Variable detect_faces : image -> list (detection image).
Variable extract_features : image -> option vec.

Local Abbreviation accepted :=
  (accepted_features image detect_faces extract_features).
Local Abbreviation aggregate :=
  (extract_features_from_multiple_images image detect_faces extract_features).

Lemma accepted_length (images : list image) :
  (List.length (accepted images) <= List.length images)%nat.
Proof.
  induction images as [|img images IH]; cbn [accepted_features List.length].
  - lia.
  - destruct (primary_embedding _ _ _ img); cbn [List.length]; lia.
Qed.

Lemma aggregate_some (images : list image) (p : training_data) (n : nat) :
  aggregate images = (Some p, n) ->
  n = List.length (accepted images) /\
  (2 <= n)%nat /\
  num_photos p = Z.of_nat n /\
  individual_features p = accepted images /\
  training_quality p = INR n / INR (List.length images).
Proof.
  rewrite aggregate_unfold. cbv zeta.
  destruct (List.length (accepted images) <? 2)%nat eqn:E; [discriminate|].
  apply Nat.ltb_ge in E. intros [= <- <-]. cbn. repeat split. exact E.
Qed.

Lemma aggregate_quality (images : list image) (p : training_data) (n : nat) :
  aggregate images = (Some p, n) -> 0 < training_quality p <= 1.
Proof.
  intro H. destruct (aggregate_some images p n H) as (Hn & H2 & _ & _ & ->).
  pose proof (accepted_length images) as Hle. rewrite <- Hn in Hle.
  assert (0 < INR n) as Hpos by (apply lt_0_INR; lia).
  assert (INR n <= INR (List.length images)) as Hle' by (apply le_INR; lia).
  assert (0 < INR (List.length images)) as Htot by lra.
  split.
  - apply Rdiv_lt_0_compat; assumption.
  - apply Rmult_le_reg_r with (INR (List.length images)); [exact Htot|].
    unfold Rdiv. rewrite Rmult_assoc, Rinv_l by lra. lra.
Qed.

(** X6. The count the aggregation returns never exceeds the number of
    images; it is below 2 exactly when no profile is returned; a returned
    profile stores as many individual embeddings as [num_photos] says, at
    least 2, and its training quality lies in (0, 1]. *)
Theorem aggregation_invariants (images : list image) :
  let '(result, valid_images) := aggregate images in
  (valid_images <= List.length images)%nat /\
  match result with
  | None => (valid_images < 2)%nat
  | Some profile =>
      (2 <= valid_images)%nat /\
      num_photos profile = Z.of_nat valid_images /\
      List.length (individual_features profile) = valid_images /\
      0 < training_quality profile <= 1
  end.
Proof.
  destruct (aggregate images) as [[p|] n] eqn:E.
  - destruct (aggregate_some images p n E) as (Hn & H2 & Hnum & Hind & _).
    pose proof (accepted_length images) as Hle. rewrite <- Hn in Hle.
    split; [exact Hle|]. split; [exact H2|]. split; [exact Hnum|].
    split; [rewrite Hind; now symmetry|].
    exact (aggregate_quality images p n E).
  - rewrite aggregate_unfold in E. cbv zeta in E.
    destruct (List.length (accepted images) <? 2)%nat eqn:L; [|discriminate].
    apply Nat.ltb_lt in L. injection E as <-.
    split; [apply accepted_length | exact L].
Qed.

(** X7. A profile aggregated from images of which too few were usable can
    never match: when the usable fraction is below the threshold the
    profile is compared against (0.75 with 2 usable images, 0.70 with
    more), the advanced comparison says no for every embedding. *)
Theorem partial_enrollment_never_matches (images : list image)
  (profile : training_data) (valid_images : nat) (unknown : option vec) :
  aggregate images = (Some profile, valid_images) ->
  INR valid_images
  < (if (3 <=? valid_images)%nat then 0.70 else 0.75)
    * INR (List.length images) ->
  fst (Recognizer.compare_features_advanced (Some profile) unknown) = false.
Proof.
  intros Hagg Hlow.
  pose proof (aggregate_quality images profile valid_images Hagg) as [Hq _].
  destruct (aggregate_some images profile valid_images Hagg)
    as (Hn & H2 & Hnum & _ & Htq).
  apply low_quality_no_match; [lra|].
  assert (Recognizer.dynamic_threshold profile
          = if (3 <=? valid_images)%nat then 0.70 else 0.75) as Hthr.
  { unfold Recognizer.dynamic_threshold. rewrite Hnum.
    unfold Recognizer.multi_photo_threshold, Recognizer.strict_threshold.
    destruct (Nat.leb_spec 3 valid_images) as [L | L].
    - assert ((3 <=? Z.of_nat valid_images)%Z = true) as ->
        by (apply Z.leb_le; lia).
      reflexivity.
    - assert ((3 <=? Z.of_nat valid_images)%Z = false) as ->
        by (apply Z.leb_gt; lia).
      reflexivity. }
  rewrite Hthr, Htq.
  pose proof (accepted_length images) as Hle. rewrite <- Hn in Hle.
  assert (0 < INR (List.length images)) as Htot by (apply lt_0_INR; lia).
  apply Rmult_lt_reg_r with (INR (List.length images)); [exact Htot|].
  unfold Rdiv. rewrite Rmult_assoc, Rinv_l by lra. lra.
Qed.

End AggregationFacts.

(** ** Detection and extraction *)

Section DetectorFacts.
Variable image : Type.
Variable process : image -> list Detector.relative_detection.
Variable shape : image -> Z * Z.
Variable crop : image -> Z -> Z -> Z -> Z -> image.

Local Abbreviation detect :=
  (Detector.detect_faces image process shape crop).

Lemma clamp_in_bounds (img : image) (h w : Z)
  (d : Detector.relative_detection) :
  Forall (fun f => Detector.box_in_bounds h w (bbox f))
    (Detector.clamp image crop img h w d).
Proof.
  unfold Detector.clamp.
  set (x := Z.max 0 (Detector.int (Detector.xmin d * IZR w))).
  set (y := Z.max 0 (Detector.int (Detector.ymin d * IZR h))).
  set (width := Z.min (Detector.int (Detector.rel_width d * IZR w)) (w - x)).
  set (height :=
         Z.min (Detector.int (Detector.rel_height d * IZR h)) (h - y)).
  destruct (0 <? width)%Z eqn:Hw; cbn [andb]; [|constructor].
  destruct (0 <? height)%Z eqn:Hh; [|constructor].
  apply Z.ltb_lt in Hw, Hh.
  constructor; [|constructor]. cbn [bbox]. unfold Detector.box_in_bounds.
  assert (width <= w - x)%Z by apply Z.le_min_r.
  assert (height <= h - y)%Z by apply Z.le_min_r.
  assert (0 <= x)%Z by apply Z.le_max_l.
  assert (0 <= y)%Z by apply Z.le_max_l.
  lia.
Qed.

(** X8. Every face [detect_faces] returns has its box inside the image,
    with positive width and height, hence a positive area; and it returns
    at most one face per detection. *)
Theorem detected_boxes_in_bounds (img : image) :
  Forall
    (fun f =>
       Detector.box_in_bounds (fst (shape img)) (snd (shape img)) (bbox f) /\
       (0 < bbox_area f)%Z)
    (detect img) /\
  (List.length (detect img) <= List.length (process img))%nat.
Proof.
  unfold Detector.detect_faces. destruct (shape img) as [h w].
  cbn [fst snd]. induction (process img) as [|d ds [IH1 IH2]].
  - split; [constructor | cbn; lia].
  - cbn [flat_map]. split.
    + apply Forall_app. split; [|exact IH1].
      eapply Forall_impl; [|apply clamp_in_bounds].
      intros f Hf. split; [exact Hf|].
      unfold bbox_area. unfold Detector.box_in_bounds in Hf. revert Hf.
      destruct (bbox f) as [[[x y] wd] ht]. intro Hf.
      apply Z.mul_pos_pos; lia.
    + rewrite length_app. cbn [List.length].
      assert (List.length (Detector.clamp image crop img h w d) <= 1)%nat.
      { unfold Detector.clamp. destruct (_ && _)%bool; cbn; lia. }
      lia.
Qed.

End DetectorFacts.

Lemma dot_div_l (a b : vec) (c : R) :
  Np.dot (Np.div a c) b = Np.dot a b * / c.
Proof.
  revert b. induction a as [|x a IH]; intros [|y b];
    try (unfold Np.dot; simpl; ring).
  change (x / c * y + Np.dot (Np.div a c) b = (x * y + Np.dot a b) * / c).
  rewrite IH. unfold Rdiv. ring.
Qed.

Lemma norm_div (a : vec) (c : R) :
  0 < c -> Np.norm (Np.div a c) = Np.norm a * / c.
Proof.
  intro Hc. unfold Np.norm. rewrite dot_div.
  assert (0 < / c) as Hi by (apply Rinv_0_lt_compat; exact Hc).
  rewrite sqrt_mult;
    [|apply dot_self_nonneg|apply Rmult_le_pos; apply Rlt_le; exact Hi].
  rewrite sqrt_square by lra. reflexivity.
Qed.

(** Dividing a vector by a positive number changes no cosine. *)
Lemma cos_div_l (a b : vec) (c : R) :
  0 < c -> Np.cos (Np.div a c) b = Np.cos a b.
Proof.
  intro Hc. unfold Np.cos. rewrite dot_div_l, norm_div by exact Hc.
  unfold Rdiv. rewrite !Rinv_mult, Rinv_inv.
  assert (/ c * c = 1) as Hinv by (apply Rinv_l; lra).
  set (D := Np.dot a b). set (ia := / Np.norm a). set (ib := / Np.norm b).
  set (ic := / c) in *.
  replace (D * ic * (ia * c * ib)) with (D * (ia * ib) * (ic * c)) by ring.
  rewrite Hinv. ring.
Qed.

Section ExtractorFacts.
Variables image tensor : Type.
Variable preprocess_face : image -> option tensor.
Variable predict : tensor -> option vec.

Local Abbreviation extract :=
  (Extractor.extract_features image tensor preprocess_face predict).

(** X9. When preprocessing and inference succeed on a read-out that is
    not all zero, the embedding returned is the read-out divided by its
    norm: it has norm 1 and the same cosine similarity with every vector
    as the read-out itself. *)
Theorem extracted_embedding_is_unit (face : image) (processed : tensor)
  (features : vec) :
  preprocess_face face = Some processed ->
  predict processed = Some features ->
  Np.norm features <> 0 ->
  exists embedding,
    extract face = Some embedding /\
    Np.norm embedding = 1 /\
    forall other, Np.cos embedding other = Np.cos features other.
Proof.
  intros Hpre Hpred Hn. unfold Extractor.extract_features.
  rewrite Hpre, Hpred. eexists. split; [reflexivity|]. split.
  - apply renormalized_unit. exact Hn.
  - intro other. apply cos_div_l.
    pose proof (sqrt_pos (Np.dot features features)). unfold Np.norm in *.
    lra.
Qed.

(** [extract_features] returns nothing exactly when preprocessing or
    inference fails. *)
Lemma extraction_fails_iff (face : image) :
  extract face = None <->
  preprocess_face face = None \/
  exists processed,
    preprocess_face face = Some processed /\ predict processed = None.
Proof.
  unfold Extractor.extract_features.
  destruct (preprocess_face face) as [t|] eqn:Hpre.
  - destruct (predict t) as [f|] eqn:Hpred; split.
    + discriminate.
    + intros [H | (t' & [= <-] & H)]; congruence.
    + intros _. right. exists t. split; [reflexivity | exact Hpred].
    + reflexivity.
  - split; [now left | reflexivity].
Qed.

End ExtractorFacts.

(** ** More on the gallery scan *)

Lemma is_candidate_permutation (g g' : Dir.t pickle_file) (u : vec)
  (f : string) (s : R) :
  Permutation g g' -> is_candidate g u f s -> is_candidate g' u f s.
Proof.
  intros Hp (sd & Hin & Hend & Hcmp). exists sd.
  split; [eapply Permutation_in; eassumption | auto].
Qed.

Lemma scan_permutation (g g' : Dir.t pickle_file) (u : vec) :
  Permutation g g' ->
  snd (scan g u) = snd (scan g' u) /\
  (fst (scan g u) = None <-> fst (scan g' u) = None).
Proof.
  intro Hp.
  pose proof (scan_invariant_holds g u) as H.
  pose proof (scan_invariant_holds g' u) as H'.
  unfold scan_invariant in *.
  destruct (scan g u) as [[k|] s], (scan g' u) as [[k'|] s'];
    cbn [fst snd] in *.
  - destruct H as (f & Hc & _ & Hmax), H' as (f' & Hc' & _ & Hmax').
    split; [|split; discriminate].
    apply Rle_antisym.
    + apply (Hmax' f). now apply (is_candidate_permutation g g').
    + apply (Hmax f'). apply (is_candidate_permutation g' g); [|exact Hc'].
      now apply Permutation_sym.
  - destruct H as (f & Hc & _), H' as [_ Hnone].
    destruct (Hnone f s). now apply (is_candidate_permutation g g').
  - destruct H as [_ Hnone], H' as (f' & Hc' & _).
    destruct (Hnone f' s'). apply (is_candidate_permutation g' g); [|exact Hc'].
    now apply Permutation_sym.
  - destruct H as [-> _], H' as [-> _]. split; [reflexivity|].
    split; reflexivity.
Qed.

(** X10. The order in which [os.listdir] lists the gallery does not change
    the best score, nor whether a match is found; it does not change the
    identity returned either, unless two matching profiles with different
    keys have exactly the same score. *)
Theorem scan_order_independent (g g' : Dir.t pickle_file) (unknown : vec) :
  Permutation g g' ->
  snd (scan g unknown) = snd (scan g' unknown) /\
  (fst (scan g unknown) = None <-> fst (scan g' unknown) = None) /\
  ((forall f f' s,
       is_candidate g unknown f s -> is_candidate g unknown f' s ->
       Py.drop_last 7 f = Py.drop_last 7 f') ->
   identify g unknown = identify g' unknown).
Proof.
  intro Hp. destruct (scan_permutation g g' unknown Hp) as [Hs Hn].
  split; [exact Hs|]. split; [exact Hn|]. intro Hties.
  pose proof (scan_invariant_holds g unknown) as H.
  pose proof (scan_invariant_holds g' unknown) as H'.
  unfold identify, scan_invariant in *.
  destruct (scan g unknown) as [[k|] s], (scan g' unknown) as [[k'|] s'];
    cbn [fst snd] in *.
  - destruct H as (f & Hc & -> & _), H' as (f' & Hc' & -> & _). subst s'.
    rewrite (Hties f f' s Hc); [reflexivity|].
    apply (is_candidate_permutation g' g); [now apply Permutation_sym|].
    exact Hc'.
  - destruct Hn as [_ Hn]. discriminate (Hn eq_refl).
  - destruct Hn as [Hn _]. discriminate (Hn eq_refl).
  - reflexivity.
Qed.

Lemma scan_step_ignored (u : vec) (acc : option string * R)
  (file : string) (content : pickle_file) :
  Py.endswith file ".pickle" = false \/
  (exists sd, content = Some sd /\ fst (compare_stored sd u) = false) ->
  scan_step u acc (file, content) = acc.
Proof.
  unfold scan_step. destruct acc as [bm bs].
  intros [-> | (sd & -> & Hcmp)]; [reflexivity|].
  destruct (Py.endswith file ".pickle"); [|reflexivity].
  destruct (compare_stored sd u) as [m s]. cbn [fst] in Hcmp. subst m.
  reflexivity.
Qed.

(** X11. A file whose name does not end in [.pickle], and a profile the
    comparison does not match, leave the outcome of the scan of the other
    files unchanged, wherever they stand in the listing. *)
Theorem scan_ignores_other_files (g1 g2 : Dir.t pickle_file)
  (file : string) (content : pickle_file) (unknown : vec) :
  Py.endswith file ".pickle" = false \/
  (exists stored_data,
      content = Some stored_data /\
      fst (compare_stored stored_data unknown) = false) ->
  scan (g1 ++ (file, content) :: g2) unknown = scan (g1 ++ g2) unknown.
Proof.
  intro H. unfold scan. rewrite !fold_left_app. cbn [fold_left].
  rewrite (scan_step_ignored unknown _ file content H). reflexivity.
Qed.

(** ** Strings and file names *)

Lemma append_inv_head (s a b : string) :
  (s ++ a = s ++ b)%string -> a = b.
Proof.
  induction s as [|c s IH]; cbn [append]; intro H; [exact H|].
  injection H as H. exact (IH H).
Qed.

Lemma length_append (a b : string) :
  String.length (a ++ b) = (String.length a + String.length b)%nat.
Proof.
  induction a as [|c a IH]; cbn [append String.length]; [reflexivity|].
  now rewrite IH.
Qed.

Lemma append_inv_tail (a b t : string) :
  (a ++ t = b ++ t)%string -> a = b.
Proof.
  revert b. induction a as [|c a IH]; intros [|c' b] H; cbn [append] in H.
  - reflexivity.
  - apply (f_equal String.length) in H. cbn [String.length] in H.
    rewrite length_append in H. lia.
  - apply (f_equal String.length) in H. cbn [String.length] in H.
    rewrite length_append in H. lia.
  - injection H as -> H. f_equal. exact (IH _ H).
Qed.

Lemma endswith_append (s suffix : string) :
  Py.endswith (s ++ suffix) suffix = true.
Proof.
  unfold Py.endswith. rewrite length_append.
  assert ((String.length suffix <=? String.length s + String.length suffix)%nat
          = true) as -> by (apply Nat.leb_le; lia).
  replace (String.length s + String.length suffix - String.length suffix)%nat
    with (String.length s) by lia.
  cbn [andb]. apply String.eqb_eq.
  induction s as [|c s IH]; cbn [append String.length substring].
  - induction suffix as [|c t IHt]; cbn [String.length substring];
      [reflexivity | now rewrite IHt].
  - exact IH.
Qed.

Lemma drop_last_append (s suffix : string) :
  Py.drop_last (String.length suffix) (s ++ suffix) = s.
Proof.
  unfold Py.drop_last. rewrite length_append.
  replace (String.length s + String.length suffix - String.length suffix)%nat
    with (String.length s) by lia.
  induction s as [|c s IH]; cbn [append String.length substring].
  - destruct suffix; reflexivity.
  - now rewrite IH.
Qed.

Lemma str_of_nat_inj (n m : nat) : Py.str_of_nat n = Py.str_of_nat m -> n = m.
Proof.
  unfold Py.str_of_nat. intro H.
  apply (f_equal NilEmpty.uint_of_string) in H.
  rewrite !NilEmpty.usu in H. injection H as H.
  apply (f_equal Nat.of_uint) in H.
  now rewrite !DecimalNat.Unsigned.of_to in H.
Qed.

Lemma photo_name_inj (user_id : string) (i j : nat) :
  photo_name user_id i = photo_name user_id j -> i = j.
Proof.
  unfold photo_name. intro H.
  apply append_inv_head in H. apply (append_inv_head "_") in H.
  apply append_inv_tail in H. apply str_of_nat_inj in H. lia.
Qed.

Lemma photo_name_not_first (user_id : string) (i : nat) :
  photo_name user_id i <> (user_id ++ ".jpg")%string.
Proof.
  unfold photo_name. intro H. apply append_inv_head in H. discriminate H.
Qed.

Section DirWrites.
Context {A : Type}.
Implicit Types (d : Dir.t A) (n : string).

Lemma find_file_write n n' (c : A) d :
  Dir.find_file n (Dir.write_file n' c d)
  = if String.eqb n n' then Some c else Dir.find_file n d.
Proof.
  unfold Dir.write_file. rewrite find_file_app, find_file_remove.
  destruct (String.eqb n n') eqn:E.
  - apply String.eqb_eq in E. subst n'.
    unfold Dir.find_file. cbn [find fst]. rewrite String.eqb_refl.
    reflexivity.
  - destruct (Dir.find_file n d) as [c'|]; [reflexivity|].
    unfold Dir.find_file. cbn [find fst].
    rewrite String.eqb_sym, E. reflexivity.
Qed.

Lemma find_file_None_notin n d (c : A) :
  Dir.find_file n d = None -> ~ In (n, c) d.
Proof.
  unfold Dir.find_file. induction d as [|[k v] d IH]; cbn [find fst].
  - intros _ [].
  - destruct (String.eqb k n) eqn:E; [discriminate|].
    intros H [[= -> ->] | Hin].
    + rewrite String.eqb_refl in E. discriminate.
    + exact (IH H Hin).
Qed.

End DirWrites.

Section DirCommute.
Context {A : Type}.
Implicit Types (d : Dir.t A) (n : string).

Lemma remove_file_comm n n' d :
  Dir.remove_file n (Dir.remove_file n' d)
  = Dir.remove_file n' (Dir.remove_file n d).
Proof.
  unfold Dir.remove_file. induction d as [|[k v] d IH]; cbn [filter fst].
  - reflexivity.
  - destruct (String.eqb k n') eqn:E', (String.eqb k n) eqn:E;
      cbn [negb filter fst]; rewrite ?E, ?E'; cbn [negb]; rewrite IH;
      reflexivity.
Qed.

Lemma remove_write_other n n' (c : A) d :
  n <> n' ->
  Dir.remove_file n (Dir.write_file n' c d)
  = Dir.write_file n' c (Dir.remove_file n d).
Proof.
  intro Hne. unfold Dir.write_file.
  rewrite remove_file_app, remove_file_comm. f_equal.
  unfold Dir.remove_file. cbn [filter fst].
  assert (String.eqb n' n = false) as -> by (apply String.eqb_neq; congruence).
  reflexivity.
Qed.

Lemma find_file_Some_in n d (c : A) :
  Dir.find_file n d = Some c -> In (n, c) d.
Proof.
  unfold Dir.find_file. induction d as [|[k v] d IH]; cbn [find fst].
  - discriminate.
  - destruct (String.eqb k n) eqn:E.
    + apply String.eqb_eq in E. subst k. intros [= ->]. now left.
    + intro H. right. exact (IH H).
Qed.

Lemma in_write_file n (c : A) d (e : string * A) :
  In e (Dir.write_file n c d) -> In e d \/ e = (n, c).
Proof.
  unfold Dir.write_file, Dir.remove_file. intro H.
  apply in_app_or in H as [H | [H | []]].
  - left. apply filter_In in H. tauto.
  - right. now symmetry.
Qed.

End DirCommute.

(** ** More on registration *)

Section RegistrationFacts.
Variable image : Type.
Variable detect_faces : image -> list (detection image).
Variable extract_features : image -> option vec.
Variable decode_image : string -> option image.
Variable select_user : list user_row -> string -> list user_row.
Variable lower_emails : list user_row -> option (list string).
Variable concat_rows : list user_row -> user_row -> list user_row.

Local Abbreviation recognize :=
  (recognize_user_enhanced image detect_faces extract_features).
Local Abbreviation register_ :=
  (register image detect_faces extract_features decode_image select_user
     lower_emails concat_rows).
Local Abbreviation decode := (decode_all image decode_image).
Local Abbreviation aggregate :=
  (extract_features_from_multiple_images image detect_faces extract_features).
Local Abbreviation primary :=
  (primary_embedding image detect_faces extract_features).

Lemma decode_all_spec (images_data : list string) (i : nat) :
  match decode i images_data with
  | inr images => map decode_image images_data = map Some images
  | inl k =>
      exists before bad after,
        images_data = before ++ bad :: after /\
        decode_image bad = None /\
        Forall (fun s => decode_image s <> None) before /\
        k = (i + S (List.length before))%nat
  end.
Proof.
  revert i. induction images_data as [|s rest IH]; intro i;
    cbn [decode_all].
  - reflexivity.
  - destruct (decode_image s) as [img|] eqn:E.
    + specialize (IH (S i)).
      destruct (decode (S i) rest) as [k|images].
      * destruct IH as (before & bad & after & -> & Hbad & Hall & ->).
        exists (s :: before), bad, after. split; [reflexivity|].
        split; [exact Hbad|]. split; [|cbn [List.length]; lia].
        constructor; [congruence | exact Hall].
      * cbn [map]. rewrite E, IH. reflexivity.
    + exists [], s, rest. split; [reflexivity|]. split; [exact E|].
      split; [constructor | cbn [List.length]; lia].
Qed.

(** X12. The decoding loop of [register] either decodes every image, in
    order, or reports the 1-based position of the first image that does
    not decode. *)
Theorem decoding_stops_at_first_failure (images_data : list string) :
  match decode 0 images_data with
  | inr images => map decode_image images_data = map Some images
  | inl k =>
      exists before bad after,
        images_data = before ++ bad :: after /\
        decode_image bad = None /\
        Forall (fun s => decode_image s <> None) before /\
        k = S (List.length before)
  end.
Proof. exact (decode_all_spec images_data 0). Qed.

Lemma save_user_data_frame (w : world image) (user_data : form)
  (user_id now : string) :
  let w' := snd (save_user_data image concat_rows w user_data user_id now) in
  pickles w' = pickles w /\ photos w' = photos w /\
  csv_read_ok w' = csv_read_ok w /\ csv_write_ok w' = csv_write_ok w.
Proof.
  unfold save_user_data.
  destruct (users_csv w) as [rows|]; [destruct (csv_read_ok w) eqn:R|];
    try destruct (csv_write_ok w) eqn:W; cbn; auto.
Qed.

(** The two ways through [register]: an early answer that changes
    nothing, or the path on which the files are written and the user data
    saved. *)
Lemma register_cases (w w' : world image) (data : request)
  (uuid8 now : string) (r : response) :
  register_ w data uuid8 now = (r, w') ->
  (is_success r = false /\ r <> Failed_to_save_user_data /\ w' = w) \/
  exists first_image rest training valid_images user_data,
    let images := first_image :: rest in
    let w3 := written_world image w uuid8 training images in
    decode 0 (req_images data) = inr images /\
    (2 <= List.length (req_images data))%nat /\
    (let email := PyStr.lower (PyStr.strip (form_email (req_form data))) in
     (PyStr.truthy email && email_exists image lower_emails w email)%bool
     = false) /\
    (recognize (pickles w) first_image = no_persons_found \/
     recognize (pickles w) first_image = unknown_person) /\
    aggregate images = (Some training, valid_images) /\
    ((r = Failed_to_save_user_data /\
      fst (save_user_data image concat_rows w3 user_data uuid8 now) = false /\
      w' = clean_up image w3 uuid8 (List.length images))
     \/
     (r = Registered uuid8 (PyStr.strip (form_name (req_form data)))
            (PyStr.lower (PyStr.strip (form_email (req_form data))))
            (List.length images) valid_images (training_quality training) /\
      fst (save_user_data image concat_rows w3 user_data uuid8 now) = true /\
      w' = snd (save_user_data image concat_rows w3 user_data uuid8 now))).
Proof.
  unfold register.
  destruct (req_images data) as [|img_data images_data] eqn:Himgs.
  { intros [= <- <-]. left. repeat split. discriminate. }
  destruct (List.length (img_data :: images_data) <? 2)%nat eqn:Hfew.
  { intros [= <- <-]. left. repeat split. discriminate. }
  apply Nat.ltb_ge in Hfew.
  destruct (_ && _)%bool eqn:Hmail.
  { intros [= <- <-]. left. repeat split. discriminate. }
  destruct (decode 0 (img_data :: images_data)) as [k|[|first_image rest]]
    eqn:Hdec.
  { intros [= <- <-]. left. repeat split. discriminate. }
  { intros [= <- <-]. left. repeat split. discriminate. }
  destruct (negb _) eqn:Hrec.
  { intros [= <- <-]. left. repeat split. discriminate. }
  apply negb_false_iff, orb_true_iff in Hrec.
  rewrite !String.eqb_eq in Hrec.
  destruct (aggregate (first_image :: rest)) as [[training|] valid_images]
    eqn:Hagg.
  2:{ intros [= <- <-]. left. repeat split. discriminate. }
  match goal with
  | |- context [save_user_data image concat_rows ?w3 ?ud uuid8 now] =>
      set (W3 := w3); set (UD := ud)
  end.
  destruct (save_user_data image concat_rows W3 UD uuid8 now) as [saved w4]
    eqn:Hsave.
  intro H. right. exists first_image, rest, training, valid_images, UD.
  cbv zeta. change (written_world image w uuid8 training (first_image :: rest))
    with W3.
  rewrite Hsave. cbn [fst snd].
  split; [reflexivity|]. split; [exact Hfew|]. split; [reflexivity|].
  split; [exact Hrec|]. split; [exact Hagg|].
  destruct saved; cbn [negb] in H; injection H as <- <-.
  - right. repeat split.
  - left. apply save_user_data_failed in Hsave. subst w4. repeat split.
Qed.

Lemma remove_photos_comm (user_id n : string) (i k : nat) (d : Dir.t image) :
  Dir.remove_file n (remove_photos image user_id i k d)
  = remove_photos image user_id i k (Dir.remove_file n d).
Proof.
  revert i d. induction k as [|k IH]; intros i d; cbn [remove_photos].
  - reflexivity.
  - rewrite IH, remove_file_comm. reflexivity.
Qed.

Lemma remove_save_photos_comm (user_id n : string) (i : nat)
  (images : list image) (d : Dir.t image) :
  (forall k, n <> photo_name user_id k) ->
  Dir.remove_file n (save_photos image user_id i images d)
  = save_photos image user_id i images (Dir.remove_file n d).
Proof.
  intro Hn. revert i d.
  induction images as [|img images IH]; intros i d; cbn [save_photos].
  - reflexivity.
  - rewrite IH, remove_write_other by apply Hn. reflexivity.
Qed.

Lemma remove_photos_saved (user_id : string) (images : list image) (i : nat)
  (d : Dir.t image) :
  remove_photos image user_id i (List.length images)
    (save_photos image user_id i images d)
  = remove_photos image user_id i (List.length images) d.
Proof.
  revert i d. induction images as [|img images IH]; intros i d;
    cbn [save_photos remove_photos List.length].
  - reflexivity.
  - assert (forall k, (S i <= k)%nat ->
                      photo_name user_id i <> photo_name user_id k) as Hne.
    { intros k Hk H. apply photo_name_inj in H. lia. }
    assert (forall j (l : list image) (d0 : Dir.t image),
               (S i <= j)%nat ->
               Dir.remove_file (photo_name user_id i)
                 (save_photos image user_id j l d0)
               = save_photos image user_id j l
                   (Dir.remove_file (photo_name user_id i) d0)) as Hcomm.
    { intros j l. revert j. induction l as [|x l IHl]; intros j d0 Hj;
        cbn [save_photos]; [reflexivity|].
      rewrite IHl by lia. rewrite remove_write_other by (apply Hne; lia).
      reflexivity. }
    rewrite Hcomm by lia. rewrite remove_written. apply IH.
Qed.

Lemma remove_photos_absent (user_id : string) (k i : nat) (d : Dir.t image) :
  (forall j, (i <= j < i + k)%nat ->
             Dir.find_file (photo_name user_id j) d = None) ->
  remove_photos image user_id i k d = d.
Proof.
  revert i. induction k as [|k IH]; intros i H; cbn [remove_photos].
  - reflexivity.
  - rewrite remove_absent by (apply H; lia). apply IH.
    intros j Hj. apply H. lia.
Qed.

(** Writing the files of an identifier and cleaning them up again gives
    back the files there were, when none of them existed before. *)
Lemma clean_up_written (w : world image) (user_id : string)
  (training : training_data) (images : list image) :
  images <> [] ->
  files_fresh image w user_id (List.length images) ->
  clean_up image (written_world image w user_id training images) user_id
    (List.length images) = w.
Proof.
  intros Hne (Hp & Hf & Hn). destruct images as [|first_image rest];
    [contradiction|].
  unfold clean_up, written_world.
  cbn [pickles photos users_csv csv_read_ok csv_write_ok set_pickles
       set_photos].
  rewrite written_exists. unfold set_photos, set_pickles.
  cbn [pickles photos users_csv csv_read_ok csv_write_ok].
  rewrite remove_written, (remove_absent _ _ Hp).
  rewrite remove_photos_comm, remove_written.
  rewrite remove_save_photos_comm
    by (intros k H; symmetry in H; exact (photo_name_not_first _ _ H)).
  rewrite remove_photos_saved, (remove_absent _ _ Hf).
  rewrite remove_photos_absent by (intros j Hj; apply Hn; lia).
  destruct w; reflexivity.
Qed.

(** X13. A registration that does not succeed leaves every file as it
    was (pickles, photos and the user table), provided none of the files
    named after the new identifier existed before. *)
Theorem failed_registration_leaves_no_trace (w w' : world image)
  (data : request) (uuid8 now : string) (r : response) :
  register_ w data uuid8 now = (r, w') ->
  is_success r = false ->
  files_fresh image w uuid8 (List.length (req_images data)) ->
  w' = w.
Proof.
  intros Hreg Hfail Hfresh.
  destruct (register_cases w w' data uuid8 now r Hreg)
    as [(_ & _ & ->) | (first_image & rest & training & valid & ud & H)];
    [reflexivity|].
  cbv zeta in H.
  destruct H as (Hdec & _ & _ & _ & _ & [(-> & _ & ->) | (-> & _)]);
    [|discriminate].
  apply clean_up_written; [discriminate|].
  rewrite (decode_all_length _ _ _ _ _ Hdec). exact Hfresh.
Qed.

Lemma find_save_photos_other (user_id n : string) (images : list image)
  (i : nat) (d : Dir.t image) :
  (forall k, (i <= k)%nat -> n <> photo_name user_id k) ->
  Dir.find_file n (save_photos image user_id i images d) = Dir.find_file n d.
Proof.
  revert i d. induction images as [|img images IH]; intros i d Hn;
    cbn [save_photos].
  - reflexivity.
  - rewrite IH by (intros k Hk; apply Hn; lia).
    rewrite find_file_write.
    assert (String.eqb n (photo_name user_id i) = false) as ->
      by (apply String.eqb_neq, Hn; lia).
    reflexivity.
Qed.

Lemma find_save_photos (user_id : string) (images : list image) (i j : nat)
  (d : Dir.t image) :
  (j < List.length images)%nat ->
  Dir.find_file (photo_name user_id (i + j))
    (save_photos image user_id i images d)
  = nth_error images j.
Proof.
  revert i j d. induction images as [|img images IH]; intros i j d Hj;
    cbn [List.length] in Hj; [lia|].
  cbn [save_photos]. destruct j as [|j].
  - rewrite Nat.add_0_r, find_save_photos_other.
    + rewrite find_file_write, String.eqb_refl. reflexivity.
    + intros k Hk H. apply photo_name_inj in H. lia.
  - replace (i + S j)%nat with (S i + j)%nat by lia.
    rewrite IH by lia. reflexivity.
Qed.

(** X14. After a successful registration the profile aggregated from the
    submitted images is stored under the new identifier, every submitted
    image is stored as its numbered photo, the first one also under the
    unnumbered name, and the answer reports the number of images, the
    number of usable ones and their quotient. *)
Theorem successful_registration_stores_everything (w w' : world image)
  (data : request) (uuid8 now : string) (r : response) :
  register_ w data uuid8 now = (r, w') ->
  is_success r = true ->
  exists images training valid_images,
    decode 0 (req_images data) = inr images /\
    aggregate images = (Some training, valid_images) /\
    Dir.find_file (uuid8 ++ ".pickle")%string (pickles w')
    = Some (Some (new_format training)) /\
    (forall i, (i < List.length images)%nat ->
               Dir.find_file (photo_name uuid8 i) (photos w')
               = nth_error images i) /\
    Dir.find_file (uuid8 ++ ".jpg")%string (photos w') = hd_error images /\
    r = Registered uuid8 (PyStr.strip (form_name (req_form data)))
          (PyStr.lower (PyStr.strip (form_email (req_form data))))
          (List.length images) valid_images
          (INR valid_images / INR (List.length images)).
Proof.
  intros Hreg Hok.
  destruct (register_cases w w' data uuid8 now r Hreg)
    as [(Hno & _) | (first_image & rest & training & valid & ud & H)];
    [congruence|].
  cbv zeta in H.
  destruct H as (Hdec & _ & _ & _ & Hagg & [(-> & _) | (-> & _ & ->)]);
    [discriminate|].
  exists (first_image :: rest), training, valid.
  split; [exact Hdec|]. split; [exact Hagg|].
  destruct (save_user_data_frame
              (written_world image w uuid8 training (first_image :: rest))
              ud uuid8 now) as (-> & -> & _).
  unfold written_world, set_photos, set_pickles.
  cbn [pickles photos users_csv csv_read_ok csv_write_ok].
  split; [|split; [|split]].
  - rewrite find_file_write, String.eqb_refl. reflexivity.
  - intros i Hi. rewrite find_file_write.
    assert (String.eqb (photo_name uuid8 i) (uuid8 ++ ".jpg") = false) as ->
      by (apply String.eqb_neq, photo_name_not_first).
    apply (find_save_photos uuid8 (first_image :: rest) 0 i). exact Hi.
  - rewrite find_file_write, String.eqb_refl. reflexivity.
  - destruct (aggregate_some image detect_faces extract_features
                _ _ _ Hagg) as (_ & _ & _ & _ & ->).
    reflexivity.
Qed.

(** X15. Whatever its outcome, [register] leaves the stored profile of
    every other identity as it was. *)
Theorem register_keeps_other_profiles (w : world image) (data : request)
  (uuid8 now : string) (file : string) :
  file <> (uuid8 ++ ".pickle")%string ->
  Dir.find_file file (pickles (snd (register_ w data uuid8 now)))
  = Dir.find_file file (pickles w).
Proof.
  intro Hne. destruct (register_ w data uuid8 now) as [r w'] eqn:Hreg.
  cbn [snd].
  destruct (register_cases w w' data uuid8 now r Hreg)
    as [(_ & _ & ->) | (first_image & rest & training & valid & ud & H)];
    [reflexivity|].
  cbv zeta in H.
  assert (String.eqb file (uuid8 ++ ".pickle") = false) as Hneb
    by (apply String.eqb_neq; exact Hne).
  destruct H as (_ & _ & _ & _ & _ & [(_ & _ & ->) | (_ & _ & ->)]).
  - unfold clean_up, written_world, set_photos, set_pickles.
    cbn [pickles photos users_csv csv_read_ok csv_write_ok].
    rewrite written_exists. cbn [pickles].
    rewrite remove_written, find_file_remove, Hneb. reflexivity.
  - destruct (save_user_data_frame
                (written_world image w uuid8 training (first_image :: rest))
                ud uuid8 now) as (-> & _).
    unfold written_world, set_photos, set_pickles. cbn [pickles].
    rewrite find_file_write, Hneb. reflexivity.
Qed.

(** X16. A registration succeeds only when at least 2 images were
    submitted and all of them decode, at least 2 of them yield an embedding,
    the first image is not recognised as a stored identity, the e-mail
    address (when one is given) is not in the user table, and the user
    table can be written. *)
Theorem registration_success_requires (w w' : world image)
  (data : request) (uuid8 now : string) (r : response) :
  register_ w data uuid8 now = (r, w') ->
  is_success r = true ->
  exists first_image rest,
    decode 0 (req_images data) = inr (first_image :: rest) /\
    rest <> [] /\
    (2 <= List.length
            (accepted_features image detect_faces extract_features
               (first_image :: rest)))%nat /\
    (recognize (pickles w) first_image = no_persons_found \/
     recognize (pickles w) first_image = unknown_person) /\
    (let email := PyStr.lower (PyStr.strip (form_email (req_form data))) in
     email = EmptyString \/ email_exists image lower_emails w email = false) /\
    csv_write_ok w = true.
Proof.
  intros Hreg Hok.
  destruct (register_cases w w' data uuid8 now r Hreg)
    as [(Hno & _) | (first_image & rest & training & valid & ud & H)];
    [congruence|].
  cbv zeta in H.
  destruct H as (Hdec & Hlen & Hmail & Hrec & Hagg & [(-> & _) | (_ & Hs & _)]);
    [discriminate|].
  exists first_image, rest. split; [exact Hdec|].
  pose proof (decode_all_length _ _ _ _ _ Hdec) as Hl.
  split; [|split; [|split; [exact Hrec|split]]].
  - intros ->. cbn [List.length] in Hl. lia.
  - destruct (aggregate_some image detect_faces extract_features
                _ _ _ Hagg) as (<- & H2 & _). exact H2.
  - apply andb_false_iff in Hmail as [Ht | He]; [left | now right].
    unfold PyStr.truthy in Ht. apply negb_false_iff, String.eqb_eq in Ht.
    exact Ht.
  - destruct (save_user_data_frame
                (written_world image w uuid8 training (first_image :: rest))
                ud uuid8 now) as (_ & _ & _ & _).
    unfold save_user_data in Hs.
    set (W := written_world image w uuid8 training (first_image :: rest))
      in *.
    assert (csv_write_ok W = csv_write_ok w) as <-.
    { unfold W, written_world, set_photos, set_pickles. reflexivity. }
    destruct (users_csv W); [destruct (csv_read_ok W)|];
      destruct (csv_write_ok W); cbn in Hs; congruence.
Qed.

Lemma recognize_primary (gallery : Dir.t pickle_file) (img : image)
  (u : vec) :
  primary img = Some u -> recognize gallery img = identify gallery u.
Proof.
  unfold primary_embedding, recognize_user_enhanced.
  destruct (largest_face (detect_faces img)) as [l|]; [|discriminate].
  cbn [Py.bind]. intros ->. reflexivity.
Qed.

(** With proper keys, a gallery that holds a match identifies one of its
    best matches and never answers with one of the two outcome strings. *)
Lemma identify_candidate_proper (gallery : Dir.t pickle_file) (u : vec)
  (file : string) (s : R) :
  keys_proper gallery ->
  is_candidate gallery u file s ->
  exists file0 s0,
    is_candidate gallery u file0 s0 /\
    (forall f' s', is_candidate gallery u f' s' -> s' <= s0) /\
    identify gallery u = Py.drop_last 7 file0 /\
    identify gallery u <> no_persons_found /\
    identify gallery u <> unknown_person.
Proof.
  intros Hkeys Hc. pose proof (scan_invariant_holds gallery u) as Hinv.
  unfold identify, scan_invariant in *.
  destruct (scan gallery u) as [[k|] bs]; cbn [fst snd] in *.
  - destruct Hinv as (file0 & Hc0 & -> & Hmax). exists file0, bs.
    split; [exact Hc0|]. split; [exact Hmax|].
    destruct Hc0 as (sd & Hin & Hend & _).
    destruct (Hkeys file0 (Some sd) Hin Hend) as (H1 & H2 & H3).
    cbn [scan_result]. rewrite truthy_nonempty by exact H1. auto.
  - destruct Hinv as [_ Hnone]. destruct (Hnone file s Hc).
Qed.

Lemma register_rejects_known (w : world image) (data : request)
  (uuid8 now : string) (first_image : image) (rest : list image)
  (matched : string) :
  decode 0 (req_images data) = inr (first_image :: rest) ->
  recognize (pickles w) first_image = matched ->
  matched <> no_persons_found ->
  matched <> unknown_person ->
  is_success (fst (register_ w data uuid8 now)) = false /\
  snd (register_ w data uuid8 now) = w /\
  (rest <> [] ->
   (let email := PyStr.lower (PyStr.strip (form_email (req_form data))) in
    (PyStr.truthy email && email_exists image lower_emails w email)%bool
    = false) ->
   fst (register_ w data uuid8 now)
   = Face_already_registered (surfaced_name image select_user w matched)).
Proof.
  intros Hdec Hrec Hnf Hup.
  pose proof (decode_all_length _ _ _ _ _ Hdec) as Hlen.
  cbn [List.length] in Hlen.
  apply String.eqb_neq in Hnf, Hup.
  unfold register.
  destruct (req_images data) as [|img_data images_data] eqn:Himgs;
    [discriminate|].
  destruct (List.length (img_data :: images_data) <? 2)%nat eqn:Hfew.
  - split; [reflexivity|]. split; [reflexivity|].
    intros Hrest _. apply Nat.ltb_lt in Hfew. cbn [List.length] in Hfew.
    destruct rest; [contradiction|]. cbn [List.length] in Hlen. lia.
  - cbv zeta. destruct (_ && _)%bool eqn:Hmail.
    + split; [reflexivity|]. split; [reflexivity|]. intros _ H. discriminate.
    + rewrite Hdec, Hrec, Hnf, Hup. cbn [orb negb fst snd].
      split; [reflexivity|]. split; [reflexivity|]. intros _ _. reflexivity.
Qed.

(** X17. When some stored profile matches the face of the first image,
    [register] writes nothing and does not succeed (the gallery having
    proper keys); a request that got past the earlier checks is answered
    with the name the user table returns for one of the best-matching
    identities, or with its key when the table returns no row. *)
Theorem matching_face_blocks_registration (w : world image) (data : request)
  (uuid8 now : string) (first_image : image) (rest : list image) (u : vec)
  (file : string) (s : R) :
  keys_proper (pickles w) ->
  decode 0 (req_images data) = inr (first_image :: rest) ->
  primary first_image = Some u ->
  is_candidate (pickles w) u file s ->
  is_success (fst (register_ w data uuid8 now)) = false /\
  snd (register_ w data uuid8 now) = w /\
  (rest <> [] ->
   (let email := PyStr.lower (PyStr.strip (form_email (req_form data))) in
    (PyStr.truthy email && email_exists image lower_emails w email)%bool
    = false) ->
   exists file0 s0,
     is_candidate (pickles w) u file0 s0 /\
     (forall f' s', is_candidate (pickles w) u f' s' -> s' <= s0) /\
     fst (register_ w data uuid8 now)
     = Face_already_registered
         (surfaced_name image select_user w (Py.drop_last 7 file0))).
Proof.
  intros Hkeys Hdec Hprim Hc.
  destruct (identify_candidate_proper _ _ _ _ Hkeys Hc)
    as (file0 & s0 & Hc0 & Hmax & Hid & Hnf & Hup).
  pose proof (recognize_primary (pickles w) first_image u Hprim) as Hrec.
  rewrite <- Hrec in Hnf, Hup, Hid.
  destruct (register_rejects_known w data uuid8 now first_image rest
              _ Hdec eq_refl Hnf Hup) as (H1 & H2 & H3).
  split; [exact H1|]. split; [exact H2|]. intros Hrest Hmail.
  exists file0, s0. split; [exact Hc0|]. split; [exact Hmax|].
  rewrite (H3 Hrest Hmail), Hid. reflexivity.
Qed.

Lemma keys_proper_write (gallery : Dir.t pickle_file) (user_id : string)
  (content : pickle_file) :
  keys_proper gallery ->
  user_id <> EmptyString ->
  user_id <> no_persons_found ->
  user_id <> unknown_person ->
  keys_proper (Dir.write_file (user_id ++ ".pickle")%string content gallery).
Proof.
  intros Hkeys H1 H2 H3 file c Hin Hend.
  apply in_write_file in Hin as [Hin | [= -> ->]].
  - exact (Hkeys file c Hin Hend).
  - change 7%nat with (String.length ".pickle").
    rewrite drop_last_append. auto.
Qed.

(** X18. In a gallery with proper keys, after a successful registration
    under a proper identifier, a further registration whose first image
    shows a face that the newly stored profile matches is refused and
    writes nothing. *)
Theorem enrolled_face_cannot_enroll_again (w w' : world image)
  (data data2 : request) (uuid8 now uuid8' now' : string) (r : response)
  (first_image : image) (rest : list image) (u : vec)
  (training : training_data) :
  register_ w data uuid8 now = (r, w') ->
  is_success r = true ->
  keys_proper (pickles w) ->
  uuid8 <> EmptyString ->
  uuid8 <> no_persons_found ->
  uuid8 <> unknown_person ->
  decode 0 (req_images data2) = inr (first_image :: rest) ->
  primary first_image = Some u ->
  Dir.find_file (uuid8 ++ ".pickle")%string (pickles w')
  = Some (Some (new_format training)) ->
  fst (Recognizer.compare_features_advanced (Some training) (Some u))
  = true ->
  is_success (fst (register_ w' data2 uuid8' now')) = false /\
  snd (register_ w' data2 uuid8' now') = w'.
Proof.
  intros Hreg Hok Hkeys H1 H2 H3 Hdec Hprim Hfind Hmatch.
  assert (keys_proper (pickles w')) as Hkeys'.
  { destruct (register_cases w w' data uuid8 now r Hreg)
      as [(Hno & _) | (f0 & rest0 & td & valid & ud & H)]; [congruence|].
    cbv zeta in H.
    destruct H as (_ & _ & _ & _ & _ & [(-> & _) | (_ & _ & ->)]);
      [discriminate|].
    destruct (save_user_data_frame
                (written_world image w uuid8 td (f0 :: rest0))
                ud uuid8 now) as (-> & _).
    unfold written_world, set_photos, set_pickles. cbn [pickles].
    now apply keys_proper_write. }
  assert (is_candidate (pickles w') u (uuid8 ++ ".pickle")
            (snd (Recognizer.compare_features_advanced (Some training)
                    (Some u)))) as Hc.
  { exists (new_format training). split; [|split].
    - apply find_file_Some_in. exact Hfind.
    - apply endswith_append.
    - destruct (Recognizer.compare_features_advanced _ _) as [m sc].
      cbn [fst snd] in *. now subst m. }
  destruct (identify_candidate_proper _ _ _ _ Hkeys' Hc)
    as (_ & _ & _ & _ & _ & Hnf & Hup).
  pose proof (recognize_primary (pickles w') first_image u Hprim) as Hrec.
  rewrite <- Hrec in Hnf, Hup.
  destruct (register_rejects_known w' data2 uuid8' now' first_image rest
              _ Hdec eq_refl Hnf Hup) as (Ha & Hb & _).
  split; assumption.
Qed.

End RegistrationFacts.

(** An answer of the scan other than ['unknown_person'] is the key of a
    matching profile whose score no other match exceeds. *)
Lemma identify_known (gallery : Dir.t pickle_file) (u : vec) :
  identify gallery u <> unknown_person ->
  exists file score,
    is_candidate gallery u file score /\
    identify gallery u = Py.drop_last 7 file /\
    forall f' s', is_candidate gallery u f' s' -> s' <= score.
Proof.
  intro Hk. pose proof (scan_invariant_holds gallery u) as Hinv.
  unfold identify, scan_invariant in *.
  destruct (scan gallery u) as [[k|] bs]; cbn [fst snd scan_result] in *;
    [|contradiction].
  destruct (PyStr.truthy k); [|contradiction].
  destruct Hinv as (file & Hc & -> & Hmax). exists file, bs. auto.
Qed.

Lemma candidate_score_at_least (gallery : Dir.t pickle_file) (u : vec)
  (file : string) (s : R) :
  is_candidate gallery u file s -> 0.70 <= s.
Proof.
  intros (sd & _ & _ & Hcmp). destruct sd as [d | features].
  - pose proof (proj1 (advanced_decides d (Some u))) as Hdec.
    rewrite Hcmp in Hdec. cbn [fst snd] in Hdec. specialize (Hdec eq_refl).
    unfold Recognizer.dynamic_threshold, Recognizer.multi_photo_threshold,
      Recognizer.strict_threshold in Hdec.
    destruct (3 <=? num_photos d)%Z; lra.
  - pose proof (simple_decides features (Some u) None) as Hdec.
    cbv zeta in Hdec. rewrite Hcmp in Hdec. cbn [fst snd] in Hdec.
    unfold Recognizer.strict_threshold in Hdec.
    assert (0 < 0.75) as Hpos by lra.
    apply Hdec in Hpos. apply proj1 in Hpos. specialize (Hpos eq_refl). lra.
Qed.

(** ** Login *)

Section LoginFacts.
Variable image : Type.
Variable detect_faces : image -> list (detection image).
Variable extract_features : image -> option vec.
Variable decode_image : string -> option image.
Variable select_user : list user_row -> string -> list user_row.
Variable bump_login : list user_row -> string -> string
                      -> option (list user_row).

Local Abbreviation login_ :=
  (login image detect_faces extract_features decode_image select_user
     bump_login).
Local Abbreviation primary :=
  (primary_embedding image detect_faces extract_features).

Lemma update_login_info_frame (w : world image) (user_id now : string) :
  let w' := snd (update_login_info image bump_login w user_id now) in
  pickles w' = pickles w /\ photos w' = photos w.
Proof.
  unfold update_login_info.
  destruct (users_csv w) as [rows|]; [|split; reflexivity].
  destruct (csv_read_ok w); [|split; reflexivity].
  destruct (bump_login rows user_id now); [|split; reflexivity].
  destruct (csv_write_ok w); split; reflexivity.
Qed.

(** X19. [login] never changes a stored profile or photo.  A login it
    refuses because the image does not decode, the face is not recognised
    or the user table has no row changes nothing at all; every other
    login, the one answered "stored image not found" included, appends
    exactly one line to the log: the identity recognised in the image, the
    name the user table returns for it, the time and [in]. *)
Theorem login_effects (s : site image) (image_data : string)
  (now_iso now : string) :
  let r := fst (login_ s image_data now_iso now) in
  let s' := snd (login_ s image_data now_iso now) in
  pickles (files s') = pickles (files s) /\
  photos (files s') = photos (files s) /\
  (refused r = true -> s' = s) /\
  (refused r = false ->
   exists img user_data,
     decode_image image_data = Some img /\
     let user_id :=
       recognize_user_enhanced image detect_faces extract_features
         (pickles (files s)) img in
     get_user_data image select_user (files s) user_id = Some user_data /\
     log s'
     = log s
       ++ [log_line user_id (form_name (row_form user_data)) now "in"]).
Proof.
  cbv zeta. unfold login.
  assert (forall r : login_response image,
             refused r = true ->
             pickles (files (snd (r, s))) = pickles (files s) /\
             photos (files (snd (r, s))) = photos (files s) /\
             (refused (fst (r, s)) = true -> snd (r, s) = s) /\
             (refused (fst (r, s)) = false ->
              exists img user_data,
                decode_image image_data = Some img /\
                get_user_data image select_user (files s)
                  (recognize_user_enhanced image detect_faces
                     extract_features (pickles (files s)) img)
                = Some user_data /\
                log (snd (r, s))
                = log s
                  ++ [log_line
                        (recognize_user_enhanced image detect_faces
                           extract_features (pickles (files s)) img)
                        (form_name (row_form user_data)) now "in"]))
    as Hrefused.
  { intros r Hr. cbn [fst snd]. rewrite Hr.
    repeat (split; [reflexivity|]). discriminate. }
  destruct (decode_image image_data) as [img|] eqn:Hdec.
  2:{ destruct (Hrefused Invalid_image eq_refl) as (H1 & H2 & H3 & _).
      split; [exact H1|]. split; [exact H2|]. split; [exact H3|].
      discriminate. }
  destruct (_ || _)%bool.
  { destruct (Hrefused Face_not_recognized eq_refl) as (H1 & H2 & H3 & _).
    split; [exact H1|]. split; [exact H2|]. split; [exact H3|].
    discriminate. }
  destruct (get_user_data image select_user (files s) _) as [user_data|]
    eqn:Hud.
  2:{ destruct (Hrefused User_data_not_found eq_refl) as (H1 & H2 & H3 & _).
      split; [exact H1|]. split; [exact H2|]. split; [exact H3|].
      discriminate. }
  pose proof (update_login_info_frame (files s)
                (recognize_user_enhanced image detect_faces extract_features
                   (pickles (files s)) img) now_iso) as [Hp Hph].
  cbv zeta in Hp, Hph.
  destruct (update_login_info image bump_login (files s) _ now_iso)
    as [ok w1].
  cbn [snd] in Hp, Hph.
  destruct (Dir.find_file _ (photos w1)) as [stored|];
    cbn [fst snd files log refused];
    (split; [exact Hp|]); (split; [exact Hph|]);
    (split; [discriminate|]); intros _; exists img, user_data;
    (split; [reflexivity|]); (split; [exact Hud | reflexivity]).
Qed.

(** X20. [login] logs a user in only when the image decodes, shows a face
    with an embedding, and that embedding matches a stored profile: the
    identity logged in is the key of a matching profile whose score, at
    least 0.70, no other matching profile exceeds, and the user table has
    a row for it. *)
Theorem login_requires_match (s : site image) (image_data : string)
  (now_iso now : string) (user_id : string) (user_data : user_row)
  (count : Z) (stored_image : image) :
  fst (login_ s image_data now_iso now)
  = Logged_in user_id user_data count stored_image ->
  exists img u file score,
    decode_image image_data = Some img /\
    primary img = Some u /\
    is_candidate (pickles (files s)) u file score /\
    user_id = Py.drop_last 7 file /\
    (forall f' s', is_candidate (pickles (files s)) u f' s' -> s' <= score) /\
    0.70 <= score /\
    get_user_data image select_user (files s) user_id = Some user_data /\
    count = (login_count user_data + 1)%Z.
Proof.
  unfold login.
  destruct (decode_image image_data) as [img|]; [|discriminate].
  set (id := recognize_user_enhanced image detect_faces extract_features
               (pickles (files s)) img).
  destruct (String.eqb id no_persons_found) eqn:Hnf; [discriminate|].
  destruct (String.eqb id unknown_person) eqn:Hup; [discriminate|].
  cbn [orb]. apply String.eqb_neq in Hnf, Hup.
  destruct (get_user_data image select_user (files s) id) as [row|] eqn:Hud;
    [|discriminate].
  destruct (update_login_info image bump_login (files s) id now_iso) as [ok w1].
  destruct (Dir.find_file _ (photos w1)) as [stored|]; [|discriminate].
  cbn [fst]. intros [= <- <- <- <-].
  assert (exists u, primary img = Some u /\
                    id = identify (pickles (files s)) u) as (u & Hu & Hid).
  { unfold id, recognize_user_enhanced, primary_embedding in *.
    destruct (largest_face (detect_faces img)) as [l|]; [|contradiction].
    cbn [Py.bind].
    destruct (extract_features (face l)) as [u|]; [|contradiction].
    exists u. split; reflexivity. }
  rewrite Hid in Hup.
  destruct (identify_known _ _ Hup) as (file & score & Hc & Hk & Hmax).
  exists img, u, file, score. split; [reflexivity|]. split; [exact Hu|].
  split; [exact Hc|]. split; [now rewrite Hid|]. split; [exact Hmax|].
  split; [exact (candidate_score_at_least _ _ _ _ Hc)|].
  split; [exact Hud | reflexivity].
Qed.

End LoginFacts.

(** ** Re-normalising the ensemble *)

Section EnsembleScale.
Variable image : Type.
Variable detect_faces : image -> list (detection image).
Variable extract_features : image -> option vec.

(** X21. Re-normalising the ensemble embedding changes no score: its
    cosine similarity with any vector is that of the plain mean of the
    accepted embeddings (when that mean is not the zero vector). *)
Theorem renormalization_changes_no_score (images : list image)
  (profile : training_data) (valid_images : nat) (other : vec) :
  extract_features_from_multiple_images image detect_faces extract_features
    images = (Some profile, valid_images) ->
  let mean :=
    Np.mean0 (accepted_features image detect_faces extract_features images) in
  Np.norm mean <> 0 ->
  Np.cos (ensemble_features profile) other = Np.cos mean other.
Proof.
  intros Hagg mean Hn. rewrite aggregate_unfold in Hagg. cbv zeta in Hagg.
  destruct (_ <? 2)%nat; [discriminate|]. injection Hagg as <- _.
  cbn [ensemble_features]. fold mean. apply cos_div_l.
  pose proof (sqrt_pos (Np.dot mean mean)). unfold Np.norm in *. lra.
Qed.

End EnsembleScale.

(** * The further properties at work on the small installation *)

Lemma example_norm : Np.norm [1; 0] = 1.
Proof.
  unfold Np.norm, Np.dot. cbn [combine map fst snd Py.sum fold_right].
  replace (1 * 1 + (0 * 0 + 0)) with 1 by ring. apply sqrt_1.
Qed.

Lemma example_norm_nonzero : Np.norm [1; 0] <> 0.
Proof. rewrite example_norm. lra. Qed.

Lemma example_mean : Np.mean0 [[1; 0]; [1; 0]] = [1; 0].
Proof.
  unfold Np.mean0, Np.div, Np.add.
  cbn [fold_left combine map fst snd List.length INR].
  f_equal; [field | f_equal; field].
Qed.

Lemma example_ensemble : ensemble_features Example.profile = [1; 0].
Proof.
  unfold Example.profile. cbn [ensemble_features].
  rewrite example_mean, example_norm. unfold Np.div. cbn [map].
  f_equal; [field | f_equal; field].
Qed.

Lemma example_profile_matches :
  Recognizer.compare_features_advanced (Some Example.profile) (Some [1; 0])
  = (true, 1).
Proof.
  unfold Recognizer.compare_features_advanced, Recognizer.advanced_try.
  rewrite example_ensemble.
  rewrite (cosine_similarity_same_length [1; 0] [1; 0]);
    [|discriminate|reflexivity].
  rewrite (individual_similarities_well_formed Example.profile [1; 0]);
    [|discriminate|repeat constructor].
  cbn [Py.bind individual_features Example.profile map].
  rewrite example_cos.
  assert (Recognizer.best_of [1; 1] = 1) as ->.
  { unfold Recognizer.best_of, Py.max_by, Py.max_from. cbn [fold_left].
    destruct (Py.gtb 1 1); reflexivity. }
  assert (Recognizer.avg_of [1; 1] = 1) as ->.
  { unfold Recognizer.avg_of, Py.mean, Py.sum.
    cbn [fold_right List.length INR]. field. }
  assert (Py.min (training_quality Example.profile) 1 = 1) as ->.
  { rewrite py_min_Rmin. cbn [training_quality Example.profile INR].
    replace ((1 + 1) / (1 + 1)) with 1 by field. apply Rmin_left. lra. }
  assert (Recognizer.dynamic_threshold Example.profile = 0.75) as ->
    by reflexivity.
  replace ((1 * 0.4 + 1 * 0.3 + 1 * 0.3) * 1) with 1 by lra.
  f_equal. apply geb_true_iff. lra.
Qed.

Lemma simple_self_match_witness :
  Np.norm [1; 0] = 1 /\
  Recognizer.compare_features_simple (Some [1; 0]) (Some [1; 0]) None
  = (true, 1).
Proof.
  split; [exact example_norm|].
  apply (simple_self_match [1; 0]). exact example_norm.
Defined.

Lemma advanced_score_bounded_witness :
  0 <= training_quality Scenario.low_quality_profile /\
  - Rmin (training_quality Scenario.low_quality_profile) 1
  <= snd (Recognizer.compare_features_advanced
            (Some Scenario.low_quality_profile) (Some [1; 0]))
  <= Rmin (training_quality Scenario.low_quality_profile) 1.
Proof.
  assert (0 <= training_quality Scenario.low_quality_profile) as Hq
    by (cbn; lra).
  split; [exact Hq|].
  apply (advanced_score_bounded Scenario.low_quality_profile (Some [1; 0])).
  exact Hq.
Defined.

Lemma partial_enrollment_never_matches_witness :
  extract_features_from_multiple_images Example.image Example.detect_faces
    Example.extract_features [1; 2; 0]%nat
  = (Some (mk_training_data (ensemble_features Example.profile)
             [[1; 0]; [1; 0]] 2 (INR 2 / INR 3)), 2%nat) /\
  fst (Recognizer.compare_features_advanced
         (Some (mk_training_data (ensemble_features Example.profile)
                  [[1; 0]; [1; 0]] 2 (INR 2 / INR 3)))
         (Some [1; 0])) = false.
Proof.
  split; [reflexivity|].
  apply (partial_enrollment_never_matches Example.image
           Example.detect_faces Example.extract_features [1; 2; 0]%nat
           _ 2%nat (Some [1; 0]) eq_refl).
  cbn [Nat.leb List.length INR]. lra.
Defined.

Lemma extracted_embedding_is_unit_witness :
  exists embedding,
    Extractor.extract_features Example.image Example.image
      Scenario.preprocess_face Scenario.predict 1%nat = Some embedding /\
    Np.norm embedding = 1 /\
    forall other, Np.cos embedding other = Np.cos [1; 0] other.
Proof.
  apply (extracted_embedding_is_unit Example.image Example.image
           Scenario.preprocess_face Scenario.predict 1%nat 1%nat [1; 0]
           eq_refl eq_refl).
  exact example_norm_nonzero.
Defined.

Lemma scan_order_independent_witness :
  let g := ("broken.pickle"%string, None) :: Example.gallery in
  let g' := Example.gallery ++ [("broken.pickle"%string, None)] in
  Permutation g g' /\
  snd (scan g [1; 0]) = snd (scan g' [1; 0]).
Proof.
  assert (Permutation
            (("broken.pickle"%string, None) :: Example.gallery)
            (Example.gallery ++ [("broken.pickle"%string, None)])) as Hp
    by apply perm_swap.
  split; [exact Hp|].
  apply (scan_order_independent _ _ [1; 0] Hp).
Defined.

Lemma scan_ignores_other_files_witness :
  scan (Example.gallery ++ [("notes.txt"%string, None)]) [1; 0]
  = scan (Example.gallery ++ []) [1; 0].
Proof.
  apply (scan_ignores_other_files Example.gallery [] "notes.txt" None
           [1; 0]).
  left. reflexivity.
Defined.

Lemma example_failed_registration :
  register Example.image Example.detect_faces Example.extract_features
    Example.decode_image Example.select_user
    Example.lower_emails Example.concat_rows Example.read_only_world
    Example.two_photos
    "deadbeef" "2024-01-01T00:00:00"
  = (Failed_to_save_user_data, Example.read_only_world).
Proof. reflexivity. Qed.

Lemma failed_registration_leaves_no_trace_witness :
  files_fresh Example.image Example.read_only_world "deadbeef" 2 /\
  Example.read_only_world = Example.read_only_world.
Proof.
  assert (files_fresh Example.image Example.read_only_world "deadbeef" 2)
    as Hfresh by (repeat split).
  split; [exact Hfresh|].
  apply (failed_registration_leaves_no_trace Example.image
           Example.detect_faces Example.extract_features
           Example.decode_image Example.select_user
    Example.lower_emails Example.concat_rows Example.read_only_world
           Example.read_only_world Example.two_photos "deadbeef"
           "2024-01-01T00:00:00" Failed_to_save_user_data
           example_failed_registration eq_refl Hfresh).
Defined.

Lemma example_registered :
  register Example.image Example.detect_faces Example.extract_features
    Example.decode_image Example.select_user
    Example.lower_emails Example.concat_rows Scenario.fresh_world
    Example.two_photos "deadbeef"
    "2024-01-01T00:00:00"
  = (fst Scenario.registered, snd Scenario.registered).
Proof. apply surjective_pairing. Qed.

Lemma example_registered_ok : is_success (fst Scenario.registered) = true.
Proof. reflexivity. Qed.

Lemma successful_registration_stores_everything_witness :
  exists images training valid_images,
    decode_all Example.image Example.decode_image 0
      (req_images Example.two_photos) = inr images /\
    extract_features_from_multiple_images Example.image
      Example.detect_faces Example.extract_features images
    = (Some training, valid_images) /\
    Dir.find_file "deadbeef.pickle" (pickles (snd Scenario.registered))
    = Some (Some (new_format training)) /\
    (forall i, (i < List.length images)%nat ->
               Dir.find_file (photo_name "deadbeef" i)
                 (photos (snd Scenario.registered))
               = nth_error images i) /\
    Dir.find_file "deadbeef.jpg" (photos (snd Scenario.registered))
    = hd_error images /\
    fst Scenario.registered
    = Registered "deadbeef" (PyStr.strip "Ann")
        (PyStr.lower (PyStr.strip " Ann@Example.org"))
        (List.length images) valid_images
        (INR valid_images / INR (List.length images)).
Proof.
  apply (successful_registration_stores_everything Example.image
           Example.detect_faces Example.extract_features
           Example.decode_image Example.select_user
    Example.lower_emails Example.concat_rows Scenario.fresh_world
           (snd Scenario.registered) Example.two_photos "deadbeef"
           "2024-01-01T00:00:00" (fst Scenario.registered)
           example_registered example_registered_ok).
Defined.

Lemma register_keeps_other_profiles_witness :
  Dir.find_file "a1b2c3d4.pickle"
    (pickles
       (snd (register Example.image Example.detect_faces
               Example.extract_features Example.decode_image Example.select_user
    Example.lower_emails Example.concat_rows
               Example.enrolled_world Example.two_photos "deadbeef"
               "2024-01-01T00:00:00")))
  = Dir.find_file "a1b2c3d4.pickle" (pickles Example.enrolled_world).
Proof.
  apply (register_keeps_other_profiles Example.image Example.detect_faces
           Example.extract_features Example.decode_image Example.select_user
    Example.lower_emails Example.concat_rows
           Example.enrolled_world Example.two_photos "deadbeef"
           "2024-01-01T00:00:00" "a1b2c3d4.pickle").
  discriminate.
Defined.

Lemma registration_success_requires_witness :
  exists first_image rest,
    decode_all Example.image Example.decode_image 0
      (req_images Example.two_photos) = inr (first_image :: rest) /\
    rest <> [] /\
    (2 <= List.length
            (accepted_features Example.image Example.detect_faces
               Example.extract_features (first_image :: rest)))%nat /\
    (recognize_user_enhanced Example.image Example.detect_faces
       Example.extract_features (pickles Scenario.fresh_world) first_image
     = no_persons_found \/
     recognize_user_enhanced Example.image Example.detect_faces
       Example.extract_features (pickles Scenario.fresh_world) first_image
     = unknown_person) /\
    (let email :=
       PyStr.lower (PyStr.strip (form_email (req_form Example.two_photos))) in
     email = EmptyString \/
     email_exists Example.image Example.lower_emails Scenario.fresh_world
       email = false) /\
    csv_write_ok Scenario.fresh_world = true.
Proof.
  apply (registration_success_requires Example.image Example.detect_faces
           Example.extract_features Example.decode_image Example.select_user
    Example.lower_emails Example.concat_rows
           Scenario.fresh_world (snd Scenario.registered)
           Example.two_photos "deadbeef" "2024-01-01T00:00:00"
           (fst Scenario.registered) example_registered
           example_registered_ok).
Defined.

Lemma example_keys_proper : keys_proper Example.gallery.
Proof.
  intros file content [[= <- <-] | []] _. cbv. repeat split; discriminate.
Qed.

Lemma example_candidate :
  is_candidate Example.gallery [1; 0] "a1b2c3d4.pickle" 1.
Proof.
  exists (old_format (Some [1; 0])). split; [now left|].
  split; [reflexivity | exact example_compare].
Qed.

Lemma matching_face_blocks_registration_witness :
  is_success
    (fst (register Example.image Example.detect_faces
            Example.extract_features Example.decode_image Example.select_user
    Example.lower_emails Example.concat_rows
            Example.enrolled_world Example.two_photos "deadbeef"
            "2024-01-01T00:00:00")) = false /\
  snd (register Example.image Example.detect_faces
         Example.extract_features Example.decode_image Example.select_user
    Example.lower_emails Example.concat_rows
         Example.enrolled_world Example.two_photos "deadbeef"
         "2024-01-01T00:00:00") = Example.enrolled_world.
Proof.
  destruct (matching_face_blocks_registration Example.image
              Example.detect_faces Example.extract_features
              Example.decode_image Example.select_user
    Example.lower_emails Example.concat_rows Example.enrolled_world
              Example.two_photos "deadbeef" "2024-01-01T00:00:00"
              1%nat [2%nat] [1; 0] "a1b2c3d4.pickle" 1
              example_keys_proper eq_refl eq_refl example_candidate)
    as (H1 & H2 & _).
  split; assumption.
Defined.

Lemma enrolled_face_cannot_enroll_again_witness :
  is_success
    (fst (register Example.image Example.detect_faces
            Example.extract_features Example.decode_image Example.select_user
    Example.lower_emails Example.concat_rows
            (snd Scenario.registered) Example.two_photos "0badcafe"
            "2024-01-02T00:00:00")) = false /\
  snd (register Example.image Example.detect_faces
         Example.extract_features Example.decode_image Example.select_user
    Example.lower_emails Example.concat_rows
         (snd Scenario.registered) Example.two_photos "0badcafe"
         "2024-01-02T00:00:00") = snd Scenario.registered.
Proof.
  apply (enrolled_face_cannot_enroll_again Example.image
           Example.detect_faces Example.extract_features
           Example.decode_image Example.select_user
    Example.lower_emails Example.concat_rows Scenario.fresh_world
           (snd Scenario.registered) Example.two_photos Example.two_photos
           "deadbeef" "2024-01-01T00:00:00" "0badcafe"
           "2024-01-02T00:00:00" (fst Scenario.registered)
           1%nat [2%nat] [1; 0] Example.profile
           example_registered example_registered_ok).
  - intros file content [].
  - discriminate.
  - discriminate.
  - discriminate.
  - reflexivity.
  - reflexivity.
  - reflexivity.
  - rewrite example_profile_matches. reflexivity.
Defined.

Lemma example_login :
  fst (login Example.image Example.detect_faces Example.extract_features
         Example.decode_image Example.select_user
    Scenario.bump_login Scenario.desk "a" "2024-01-03T08:00:00"
         "2024-01-03 08:00:00")
  = Logged_in "a1b2c3d4" Scenario.ann 1 1%nat.
Proof.
  unfold login.
  change (Example.decode_image "a") with (Some 1%nat). cbv iota beta.
  change (recognize_user_enhanced Example.image Example.detect_faces
            Example.extract_features (pickles (files Scenario.desk)) 1%nat)
    with (identify Example.gallery [1; 0]).
  rewrite example_identify. reflexivity.
Qed.

Lemma login_requires_match_witness :
  exists img u file score,
    Example.decode_image "a" = Some img /\
    primary_embedding Example.image Example.detect_faces
      Example.extract_features img = Some u /\
    is_candidate (pickles (files Scenario.desk)) u file score /\
    "a1b2c3d4"%string = Py.drop_last 7 file /\
    (forall f' s',
        is_candidate (pickles (files Scenario.desk)) u f' s' ->
        s' <= score) /\
    0.70 <= score /\
    get_user_data Example.image Example.select_user (files Scenario.desk)
      "a1b2c3d4"
    = Some Scenario.ann /\
    1%Z = (login_count Scenario.ann + 1)%Z.
Proof.
  apply (login_requires_match Example.image Example.detect_faces
           Example.extract_features Example.decode_image Example.select_user
    Scenario.bump_login Scenario.desk
           "a" "2024-01-03T08:00:00" "2024-01-03 08:00:00"
           "a1b2c3d4" Scenario.ann 1 1%nat example_login).
Defined.

Lemma renormalization_changes_no_score_witness :
  Np.cos (ensemble_features Example.profile) [0; 1]
  = Np.cos (Np.mean0 [[1; 0]; [1; 0]]) [0; 1].
Proof.
  apply (renormalization_changes_no_score Example.image
           Example.detect_faces Example.extract_features [1; 2]%nat
           Example.profile 2%nat [0; 1] eq_refl).
  change (accepted_features Example.image Example.detect_faces
            Example.extract_features [1; 2]%nat)
    with [[1; 0]; [1; 0]].
  rewrite example_mean. exact example_norm_nonzero.
Defined.

Lemma login_effects_witness :
  log (snd (login Example.image Example.detect_faces
              Example.extract_features Example.decode_image
              Example.select_user Scenario.bump_login Scenario.desk "a"
              "2024-01-03T08:00:00" "2024-01-03 08:00:00"))
  = [log_line "a1b2c3d4" "Ann" "2024-01-03 08:00:00" "in"].
Proof.
  destruct (login_effects Example.image Example.detect_faces
              Example.extract_features Example.decode_image
              Example.select_user Scenario.bump_login Scenario.desk "a"
              "2024-01-03T08:00:00" "2024-01-03 08:00:00")
    as (_ & _ & _ & H).
  destruct H as (img & user_data & Hdec & Hud & Hlog).
  { rewrite example_login. reflexivity. }
  injection Hdec as <-.
  change (recognize_user_enhanced Example.image Example.detect_faces
            Example.extract_features (pickles (files Scenario.desk)) 1%nat)
    with (identify Example.gallery [1; 0]) in Hud, Hlog.
  rewrite example_identify in Hud, Hlog.
  injection Hud as <-. exact Hlog.
Defined.

(** C5. The guard runs on the first image and nothing is written, but the
    answer does not always surface the identity found: for an identity
    enrolled without a name the user table returns NaN for the name, and
    the answer reads [already registered under "nan"]. *)
Theorem duplicate_answer_can_hide_identity :
  recognize_user_enhanced Example.image Example.detect_faces
    Example.extract_features (pickles Scenario.nameless_world) 1%nat
  = "a1b2c3d4"%string /\
  register Example.image Example.detect_faces Example.extract_features
    Example.decode_image Example.select_user Example.lower_emails
    Example.concat_rows Scenario.nameless_world Example.two_photos
    "deadbeef" "2024-01-01T00:00:00"
  = (Face_already_registered "nan", Scenario.nameless_world).
Proof.
  assert (recognize_user_enhanced Example.image Example.detect_faces
            Example.extract_features (pickles Scenario.nameless_world) 1%nat
          = "a1b2c3d4"%string) as Hrec by exact example_identify.
  split; [exact Hrec|].
  destruct (register_rejects_known Example.image Example.detect_faces
              Example.extract_features Example.decode_image
              Example.select_user Example.lower_emails Example.concat_rows
              Scenario.nameless_world Example.two_photos
              "deadbeef" "2024-01-01T00:00:00" 1%nat [2%nat] "a1b2c3d4"
              eq_refl Hrec)
    as (_ & Hworld & Hanswer); try discriminate.
  apply injective_projections; cbn [fst snd].
  - rewrite Hanswer; [reflexivity | discriminate | reflexivity].
  - exact Hworld.
Qed.
